(** * Stillness: the session / interval timing engine of the meditation app

    A shallow embedding of the [App] component of [src/types.ts] (the
    variant with pause support): its React state, its event handlers
    ([startSession], [togglePause], [recordThought], [endSession],
    [deleteSession]), the 100 ms timer effect and the start-up load from
    [localStorage]; of its derived views [liveStats] and [groupedSessions];
    of the formatter [formatDuration]; and of the two earlier variants of
    the component, [src/unnamed/part_001] (journal, no pause) and
    [src/unnamed/part_002] (one session, no archive).

    Modelling conventions.
    - Timestamps, durations and ids are JavaScript numbers holding
      integers; they are modelled as [Z].  [Date.now()] is an input of every
      handler (the argument [now]); a handler that reads the clock several
      times within one invocation, and the timer effect that runs right
      after it, are given one reading.
    - [personalBest] is the only number that can be [NaN] (it is produced by
      [parseInt] at start-up), so it has type [jsnum].
    - [avgGap] is the only non-integer number; it is modelled by the exact
      rational the double-precision quotient rounds.
    - [localStorage] is a finite map from string keys to string values.
    - One handler runs to completion on a freshly rendered closure: React
      flushes the state updates of a discrete event before the next event is
      dispatched, so the state a handler reads is the state the previous one
      left. *)

From Stdlib Require Import ZArith QArith List Ascii String Lia DecimalString
  DecimalPos Sorted.
From stdpp Require Import gmap strings list fin_maps.

Open Scope Z_scope.

(** ** JavaScript numbers and strings *)

Module JS.

(** A JavaScript number that is either an integer or [NaN]. *)
Inductive jsnum : Type :=
| Num (z : Z)
| NaN.

(** [x > y] on numbers: every comparison with [NaN] is [false]. *)
Definition gt (x y : jsnum) : bool :=
  match x, y with
  | Num a, Num b => b <? a
  | _, _ => false
  end.

(** Truthiness of a number, as tested by [n ? a : b]. *)
Definition truthy (x : jsnum) : bool :=
  match x with
  | Num z => negb (z =? 0)
  | NaN => false
  end.

(** [Number.prototype.toString()] on an integer: decimal digits with a
    leading minus sign for negatives. *)
Definition toString (z : Z) : string :=
  NilZero.string_of_int (Z.to_int z).

(** The white space [parseInt] skips (the ASCII part of
    StrWhiteSpaceChar). *)
Definition isWhiteSpace (c : ascii) : bool :=
  let n := nat_of_ascii c in
  ((n =? 32) || (n =? 9) || (n =? 10) || (n =? 11) || (n =? 12) || (n =? 13))%nat.

Definition digitOf (c : ascii) : option Z :=
  let n := Z.of_nat (nat_of_ascii c) in
  if (48 <=? n) && (n <=? 57) then Some (n - 48) else None.

Fixpoint skipWhiteSpace (s : string) : string :=
  match s with
  | String c rest => if isWhiteSpace c then skipWhiteSpace rest else s
  | EmptyString => s
  end.

(** Reads the longest prefix of decimal digits; [acc] is [None] until a
    digit has been read. *)
Fixpoint readDigits (acc : option Z) (s : string) : option Z :=
  match s with
  | String c rest =>
      match digitOf c with
      | Some d => readDigits (Some (10 * default 0 acc + d)) rest
      | None => acc
      end
  | EmptyString => acc
  end.

(** [parseInt(s, 10)]: leading white space, an optional sign, then the
    longest run of digits; [NaN] when there is no digit. *)
Definition parseInt (s : string) : jsnum :=
  let t := skipWhiteSpace s in
  let '(sign, body) :=
    match t with
    | String "-"%char rest => (-1, rest)
    | String "+"%char rest => (1, rest)
    | _ => (1, t)
    end in
  match readDigits None body with
  | Some v => Num (sign * v)
  | None => NaN
  end.

(** Truthiness of a string: every string but the empty one. *)
Definition nonEmpty (s : string) : bool :=
  match s with
  | EmptyString => false
  | String _ _ => true
  end.

End JS.

Import JS.

(** ** Data model *)

(** [interface IntervalRecord]. *)
Record IntervalRecord : Type := mkInterval {
  iv_id : Z;
  duration : Z;
  timestamp : Z
}.

(** [interface SessionRecord]. *)
Record SessionRecord : Type := mkSession {
  sr_id : Z;
  date : string;
  sr_intervals : list IntervalRecord;
  totalDuration : Z;
  thoughtCount : Z;
  longestGap : Z;
  avgGap : Q
}.

(** The host functions the component calls and does not define:
    [Date.prototype.toISOString] of the date with a given time value,
    [JSON.stringify] on an archive, and [JSON.parse], which is [None] when
    the text is rejected with a [SyntaxError] and the parsed archive
    otherwise. *)
Class Host : Type := {
  toISOString : Z -> string;
  JSON_stringify : list SessionRecord -> string;
  JSON_parse : string -> option (list SessionRecord)
}.

Definition STORAGE_KEY_PB : string := "stillness_personal_best".
Definition STORAGE_KEY_SESSIONS : string := "stillness_sessions_v4".

(** The [useState] cells of [App], the [lastUpdateRef] ref and the
    [localStorage] of the page.  [timerRef] is not a field: after every
    run of the timer effect an interval timer is installed exactly when
    [isActive && !isPaused]. *)
Record AppState : Type := mkState {
  isActive : bool;
  isPaused : bool;
  currentInterval : Z;
  intervals : list IntervalRecord;
  sessionStartTime : option Z;
  personalBest : jsnum;
  allSessions : list SessionRecord;
  lastUpdateRef : Z;
  localStorage : gmap string string
}.

Definition initialState : AppState :=
  {| isActive := false; isPaused := false; currentInterval := 0;
     intervals := []; sessionStartTime := None; personalBest := Num 0;
     allSessions := []; lastUpdateRef := 0; localStorage := ∅ |}.

(** The state setters. *)
Definition setIsActive (b : bool) (s : AppState) : AppState :=
  mkState b (isPaused s) (currentInterval s) (intervals s) (sessionStartTime s)
          (personalBest s) (allSessions s) (lastUpdateRef s) (localStorage s).

Definition setIsPaused (b : bool) (s : AppState) : AppState :=
  mkState (isActive s) b (currentInterval s) (intervals s) (sessionStartTime s)
          (personalBest s) (allSessions s) (lastUpdateRef s) (localStorage s).

Definition setCurrentInterval (c : Z) (s : AppState) : AppState :=
  mkState (isActive s) (isPaused s) c (intervals s) (sessionStartTime s)
          (personalBest s) (allSessions s) (lastUpdateRef s) (localStorage s).

Definition setIntervals (l : list IntervalRecord) (s : AppState) : AppState :=
  mkState (isActive s) (isPaused s) (currentInterval s) l (sessionStartTime s)
          (personalBest s) (allSessions s) (lastUpdateRef s) (localStorage s).

Definition setSessionStartTime (t : option Z) (s : AppState) : AppState :=
  mkState (isActive s) (isPaused s) (currentInterval s) (intervals s) t
          (personalBest s) (allSessions s) (lastUpdateRef s) (localStorage s).

Definition setPersonalBest (p : jsnum) (s : AppState) : AppState :=
  mkState (isActive s) (isPaused s) (currentInterval s) (intervals s)
          (sessionStartTime s) p (allSessions s) (lastUpdateRef s)
          (localStorage s).

Definition setAllSessions (l : list SessionRecord) (s : AppState) : AppState :=
  mkState (isActive s) (isPaused s) (currentInterval s) (intervals s)
          (sessionStartTime s) (personalBest s) l (lastUpdateRef s)
          (localStorage s).

Definition setLastUpdateRef (t : Z) (s : AppState) : AppState :=
  mkState (isActive s) (isPaused s) (currentInterval s) (intervals s)
          (sessionStartTime s) (personalBest s) (allSessions s) t
          (localStorage s).

Definition localStorage_setItem (k v : string) (s : AppState) : AppState :=
  mkState (isActive s) (isPaused s) (currentInterval s) (intervals s)
          (sessionStartTime s) (personalBest s) (allSessions s)
          (lastUpdateRef s) (<[k := v]> (localStorage s)).

(** ** The component *)

(** What the presentation layer and the timer can ask of the component.
    Every event carries the reading of [Date.now()] at which it is handled. *)
Inductive event : Type :=
| StartSession (now : Z)
| Tick (now : Z)
| TogglePause (now : Z)
| RecordThought (now : Z)
| EndSession (now : Z)
| DeleteSession (id : Z).

Section App.

Context `{host : Host}.

(** The condition of the timer effect: [isActive && !isPaused]. *)
Definition running (s : AppState) : bool :=
  isActive s && negb (isPaused s).

(** The timer effect, with dependencies [[isActive, isPaused]]: it runs
    again after a render that changed one of them, and when the session is
    running it stamps [lastUpdateRef] and installs the 100 ms timer; in
    every other case the timer is cleared. *)
Definition timerEffect (now : Z) (before after : AppState) : AppState :=
  if Bool.eqb (isActive before) (isActive after)
     && Bool.eqb (isPaused before) (isPaused after)
  then after
  else if running after then setLastUpdateRef now after else after.

(** The callback of the interval timer.  The timer exists only while the
    session is running, so a tick in any other state finds no callback. *)
Definition tick (now : Z) (s : AppState) : AppState :=
  if running s then
    let delta := now - lastUpdateRef s in
    setLastUpdateRef now (setCurrentInterval (currentInterval s + delta) s)
  else s.

Definition startSession (now : Z) (s : AppState) : AppState :=
  timerEffect now s
    (setIntervals []
       (setCurrentInterval 0
          (setSessionStartTime (Some now)
             (setIsPaused false (setIsActive true s))))).

Definition togglePause (now : Z) (s : AppState) : AppState :=
  timerEffect now s (setIsPaused (negb (isPaused s)) s).

Definition recordThought (now : Z) (s : AppState) : AppState :=
  if negb (isActive s) || isPaused s then s
  else
    let duration := currentInterval s in
    let newRecord :=
      {| iv_id := Z.of_nat (length (intervals s)) + 1;
         duration := duration;
         timestamp := now |} in
    let s1 := setIntervals (intervals s ++ [newRecord]) s in
    let s2 :=
      if gt (Num duration) (personalBest s)
      then localStorage_setItem STORAGE_KEY_PB (toString duration)
             (setPersonalBest (Num duration) s1)
      else s1 in
    setCurrentInterval 0 s2.

(** [sessionStartTime ? Date.now() - sessionStartTime : 0]. *)
Definition totalSessionDuration (now : Z) (s : AppState) : Z :=
  match sessionStartTime s with
  | Some t => if truthy (Num t) then now - t else 0
  | None => 0
  end.

(** The local [finalIntervals] of [endSession]: the closed intervals, and
    the running one as the final piece when it is longer than 500 ms. *)
Definition finalIntervals (now : Z) (s : AppState) : list IntervalRecord :=
  if 500 <? currentInterval s
  then intervals s ++
         [ {| iv_id := Z.of_nat (length (intervals s)) + 1;
              duration := currentInterval s;
              timestamp := now |} ]
  else intervals s.

(** [Math.max(...l.map(i => i.duration), 0)]. *)
Definition maxDuration (l : list IntervalRecord) : Z :=
  fold_right Z.max 0 (map duration l).

(** [l.reduce((acc, curr) => acc + curr.duration, 0)]. *)
Definition sumDuration (l : list IntervalRecord) : Z :=
  fold_left (fun acc curr => acc + duration curr) l 0.

(** The [sessionStats] record built by [endSession]. *)
Definition sessionStats (now : Z) (s : AppState) : SessionRecord :=
  let final := finalIntervals now s in
  {| sr_id := now;
     date := toISOString now;
     sr_intervals := final;
     totalDuration := totalSessionDuration now s;
     thoughtCount := Z.of_nat (length final);
     longestGap := maxDuration final;
     avgGap := (inject_Z (sumDuration final)
                / inject_Z (Z.of_nat (length final)))%Q |}.

Definition endSession (now : Z) (s : AppState) : AppState :=
  let s1 := setIsPaused false (setIsActive false s) in
  let s2 :=
    if (0 <? length (finalIntervals now s))%nat
    then
      let updatedSessions := sessionStats now s :: allSessions s in
      localStorage_setItem STORAGE_KEY_SESSIONS
        (JSON_stringify updatedSessions)
        (setAllSessions updatedSessions s1)
    else s1 in
  timerEffect now s (setIntervals [] (setCurrentInterval 0 s2)).

Definition deleteSession (id : Z) (s : AppState) : AppState :=
  let updated := filter (fun r => sr_id r ≠ id) (allSessions s) in
  localStorage_setItem STORAGE_KEY_SESSIONS (JSON_stringify updated)
    (setAllSessions updated s).

(** The mount effect ("Load Data"). *)
Definition loadData (s : AppState) : AppState :=
  let s1 :=
    match localStorage s !! STORAGE_KEY_PB with
    | Some storedPB =>
        if nonEmpty storedPB
        then setPersonalBest (parseInt storedPB) s
        else s
    | None => s
    end in
  match localStorage s !! STORAGE_KEY_SESSIONS with
  | Some storedSessions =>
      if nonEmpty storedSessions
      then match JSON_parse storedSessions with
           | Some parsed => setAllSessions parsed s1
           | None => setAllSessions [] s1
           end
      else s1
  | None => s1
  end.

Definition step (s : AppState) (e : event) : AppState :=
  match e with
  | StartSession now => startSession now s
  | Tick now => tick now s
  | TogglePause now => togglePause now s
  | RecordThought now => recordThought now s
  | EndSession now => endSession now s
  | DeleteSession id => deleteSession id s
  end.

(** A run of the component: the events are handled in arrival order. *)
Definition run (tr : list event) (s : AppState) : AppState :=
  fold_left step tr s.

End App.

(** A host for evaluating the component on concrete inputs: dates print as
    the decimal timestamp, and the archive text records only how many
    sessions it holds; the text ["[]"] parses to the empty archive and
    nothing else parses. *)
Definition sampleHost : Host :=
  {| toISOString := toString;
     JSON_stringify := fun l => toString (Z.of_nat (length l));
     JSON_parse := fun s => if String.eqb s "[]" then Some [] else None |}.

(** Timer ticks at the 100 ms cadence: [n] ticks after time [t0]. *)
Definition ticksAfter (t0 : Z) (n : nat) : list event :=
  map (fun k => Tick (t0 + 100 * Z.of_nat k)) (seq 1 n).

(** ** Vocabulary of the statements *)

(** The order in which the personal best may move: it stays as it is, or it
    goes from one number to a strictly larger one.  ([NaN] is related to
    itself only.) *)
Definition pb_le (a b : jsnum) : Prop :=
  a = b \/ exists x y, a = Num x /\ b = Num y /\ x < y.

Definition sumZ (l : list Z) : Z := foldr Z.add 0 l.

(** The wall-clock deltas a sequence of ticks consumes: each tick measures
    from the previous one, the first from [prev]. *)
Fixpoint tickDeltas (prev : Z) (ts : list Z) : list Z :=
  match ts with
  | [] => []
  | t :: ts' => (t - prev) :: tickDeltas t ts'
  end.

(** One pause of a running session: the pause, the timer instants that fall
    in the paused period, the resume, and the ticks that follow it. *)
Record pauseWindow : Type := mkWindow {
  pauseAt : Z;
  pausedTicks : list Z;
  resumeAt : Z;
  resumedTicks : list Z
}.

Definition windowEvents (w : pauseWindow) : list event :=
  TogglePause (pauseAt w) :: map Tick (pausedTicks w)
    ++ TogglePause (resumeAt w) :: map Tick (resumedTicks w).

(** The un-paused deltas of a window: those of the ticks after the resume,
    measured from the resume. *)
Definition unpausedDeltas (w : pauseWindow) : list Z :=
  tickDeltas (resumeAt w) (resumedTicks w).

(** The scenario of the specification on a clock whose origin is [t0]:
    start at [t0], thoughts at [t0 + 1200] and [t0 + 1900], with the timer
    ticking at its cadence; the session is then ended at [t0 + 2300]. *)
Definition scenarioBeforeEnd (t0 : Z) : list event :=
  [StartSession t0] ++ ticksAfter t0 12 ++ [RecordThought (t0 + 1200)]
    ++ ticksAfter (t0 + 1200) 7 ++ [RecordThought (t0 + 1900)]
    ++ ticksAfter (t0 + 1900) 4.

Definition scenario (t0 : Z) : list event :=
  scenarioBeforeEnd t0 ++ [EndSession (t0 + 2300)].




(** A session of one second that is ended without any thought. *)
Definition silentSession : list event :=
  [StartSession 1000] ++ ticksAfter 1000 10 ++ [EndSession 2000].

(** Two sessions with one instantaneous thought each, all handled at the
    same clock reading (2026-01-01T00:00:00.000Z). *)
Definition sameReading : Z := 1767225600000.

Definition twinSessions : list event :=
  [StartSession sameReading; RecordThought sameReading; EndSession sameReading;
   StartSession sameReading; RecordThought sameReading; EndSession sameReading].

(** ** The derived views and the formatter *)

(** [s.padStart(2, '0')]. *)
Definition padStart2 (s : string) : string :=
  match String.length s with
  | O => "00"
  | S O => String "0" s
  | _ => s
  end.

(** [formatDuration] on an integer number of milliseconds.  With
    [totalSeconds = ms / 1000], [Math.floor(totalSeconds / 3600)] is the
    floor of [ms / 3600000], [totalSeconds % 3600] is the truncated
    remainder of [ms] by 3600000 over 1000, and [totalSeconds % 60] that of
    [ms] by 60000 over 1000; the double-precision operations give these
    floors exactly for an integer [ms] below 2^50 in magnitude. *)
Definition formatDuration (ms : Z) : string :=
  let hours := ms / 3600000 in
  let minutes := Z.rem ms 3600000 / 60000 in
  let seconds := Z.rem ms 60000 / 1000 in
  if 0 <? hours
  then String.append (toString hours)
         (String ":" (String.append (padStart2 (toString minutes))
                        (String ":" (padStart2 (toString seconds)))))
  else String.append (toString minutes)
         (String ":" (padStart2 (toString seconds))).

(** The object [liveStats] computes for the footer. *)
Record LiveStats : Type := mkLiveStats {
  count : Z;
  average : Q;
  longest : jsnum;
  liveTotalDuration : Z
}.

Definition liveStats (s : AppState) : LiveStats :=
  let l := allSessions s in
  {| count := fold_left (fun acc r => acc + thoughtCount r) l 0;
     liveTotalDuration := fold_left (fun acc r => acc + totalDuration r) l 0;
     average :=
       if (0 <? length l)%nat
       then (fold_left (fun acc r => acc + avgGap r) l 0
             / inject_Z (Z.of_nat (length l)))%Q
       else 0%Q;
     longest := personalBest s |}.

(** The body of the [forEach] of [groupedSessions]: the session is pushed
    to the group of its key, and a group is created at the end of the
    object's keys when the key is new.  The object is kept as the list of
    its entries in insertion order, which is the order [Object.entries]
    yields for keys that are neither array indices nor names found on
    [Object.prototype], as the keys [toLocaleDateString] gives are. *)
Fixpoint pushGroup (k : string) (r : SessionRecord)
    (groups : list (string * list SessionRecord))
    : list (string * list SessionRecord) :=
  match groups with
  | [] => [(k, [r])]
  | (k', g) :: rest =>
      if String.eqb k' k then (k', g ++ [r]) :: rest
      else (k', g) :: pushGroup k r rest
  end.

(** [groupedSessions]; [dateKey] is the host's
    [new Date(date).toLocaleDateString(undefined, ...)]. *)
Definition groupedSessions (dateKey : string -> string) (s : AppState)
    : list (string * list SessionRecord) :=
  fold_left (fun groups session => pushGroup (dateKey (date session)) session groups)
    (allSessions s) [].

(** Reloading the page: the cells and the ref start from their initial
    values, the storage is what the previous run left, and the mount effect
    loads from it. *)
Definition remount `{host : Host} (s : AppState) : AppState :=
  loadData
    {| isActive := false; isPaused := false; currentInterval := 0;
       intervals := []; sessionStartTime := None; personalBest := Num 0;
       allSessions := []; lastUpdateRef := 0;
       localStorage := localStorage s |}.

(** ** What the presentation layer lets through *)

(** The controls that are rendered and enabled: [Begin] only while no
    session is active; the tap zone while a session is active and not
    paused; [Pause]/[Resume] and [Finish] while a session is active; the
    interval timer while the session is running; the journal, with its
    delete buttons, at any time.  Which of the two views is shown is not
    modelled, so this admits every event the rendered page can send and
    some it cannot (a tap while the journal is open). *)
Definition enabled (s : AppState) (e : event) : bool :=
  match e with
  | StartSession _ => negb (isActive s)
  | Tick _ => isActive s && negb (isPaused s)
  | TogglePause _ => isActive s
  | RecordThought _ => isActive s && negb (isPaused s)
  | EndSession _ => isActive s
  | DeleteSession _ => true
  end.

(** The clock reading an event is handled at. *)
Definition eventTime (e : event) : option Z :=
  match e with
  | StartSession now | Tick now | TogglePause now
  | RecordThought now | EndSession now => Some now
  | DeleteSession _ => None
  end.

(** A run the presentation layer can produce on a clock that does not go
    backwards: every event is enabled in the state that handles it and is
    handled at a reading not before [clock], the last reading so far. *)
Fixpoint admissible `{host : Host} (clock : Z) (s : AppState)
    (tr : list event) : Prop :=
  match tr with
  | [] => True
  | e :: tr' =>
      enabled s e = true
      /\ match eventTime e with
         | Some now => clock <= now /\ admissible now (step s e) tr'
         | None => admissible clock (step s e) tr'
         end
  end.

(** The events between the start and the end of an un-paused session. *)
Definition duringSession (e : event) : bool :=
  match e with
  | Tick _ | RecordThought _ => true
  | _ => false
  end.

(** The clock readings of the ticks of a run, in order. *)
Fixpoint tickTimes (tr : list event) : list Z :=
  match tr with
  | [] => []
  | Tick now :: tr' => now :: tickTimes tr'
  | _ :: tr' => tickTimes tr'
  end.

(** ** Invariants of the data *)

(** Interval ids count from 1 in steps of 1. *)
Definition sequentialIds (l : list IntervalRecord) : Prop :=
  map iv_id l = map Z.of_nat (seq 1 (length l)).

(** The data-model invariant of an archived session. *)
Definition wellFormedSession (r : SessionRecord) : Prop :=
  sr_intervals r <> []
  /\ thoughtCount r = Z.of_nat (length (sr_intervals r))
  /\ sequentialIds (sr_intervals r)
  /\ Forall (fun i => duration i <= longestGap r) (sr_intervals r)
  /\ 0 <= longestGap r.

(** The personal best in memory is a number, and the storage holds its
    decimal text, or holds nothing while the best is still 0. *)
Definition personalBestPersisted (s : AppState) : Prop :=
  exists b : Z,
    personalBest s = Num b
    /\ (localStorage s !! STORAGE_KEY_PB = Some (toString b)
        \/ (b = 0 /\ localStorage s !! STORAGE_KEY_PB = None)).

(** The storage holds the text of the archive in memory. *)
Definition archivePersisted `{host : Host} (s : AppState) : Prop :=
  localStorage s !! STORAGE_KEY_SESSIONS
  = Some (JSON_stringify (allSessions s)).

(** A tail that does not continue a number: it is empty or starts with a
    character that is not a digit. *)
Definition notDigitHead (rest : string) : Prop :=
  match rest with
  | EmptyString => True
  | String c _ => digitOf c = None
  end.

(** ** The variant with the journal and without pause *)

(** The [App] component of [src/unnamed/part_001]: durations are measured
    between clock readings taken at the thoughts themselves, in the ref
    [lastThoughtTimestamp], and the timer only refreshes the display. *)
Module MindGapV3.

Definition STORAGE_KEY_PB : string := "mindgap_personal_best".
Definition STORAGE_KEY_SESSIONS : string := "mindgap_sessions_v3".

Record State : Type := mkState {
  isActive : bool;
  currentInterval : Z;
  intervals : list IntervalRecord;
  sessionStartTime : option Z;
  personalBest : jsnum;
  allSessions : list SessionRecord;
  lastThoughtTimestamp : Z;
  localStorage : gmap string string
}.

Definition initialState : State :=
  {| isActive := false; currentInterval := 0; intervals := [];
     sessionStartTime := None; personalBest := Num 0; allSessions := [];
     lastThoughtTimestamp := 0; localStorage := ∅ |}.

Inductive event : Type :=
| StartSession (now : Z)
| Tick (now : Z)
| RecordThought (now : Z)
| EndSession (now : Z)
| DeleteSession (id : Z).

(** The callback of the interval timer, which exists while [isActive]. *)
Definition tick (now : Z) (s : State) : State :=
  if isActive s
  then mkState (isActive s) (now - lastThoughtTimestamp s) (intervals s)
               (sessionStartTime s) (personalBest s) (allSessions s)
               (lastThoughtTimestamp s) (localStorage s)
  else s.

Definition startSession (now : Z) (s : State) : State :=
  mkState true 0 [] (Some now) (personalBest s) (allSessions s) now
          (localStorage s).

Definition recordThought (now : Z) (s : State) : State :=
  if negb (isActive s) then s
  else
    let duration := now - lastThoughtTimestamp s in
    let newRecord :=
      {| iv_id := Z.of_nat (length (intervals s)) + 1;
         duration := duration;
         timestamp := now |} in
    let raised := gt (Num duration) (personalBest s) in
    mkState (isActive s) 0 (intervals s ++ [newRecord]) (sessionStartTime s)
            (if raised then Num duration else personalBest s)
            (allSessions s) now
            (if raised
             then <[STORAGE_KEY_PB := toString duration]> (localStorage s)
             else localStorage s).

(** The local [finalIntervals] of [endSession]. *)
Definition finalIntervals (now : Z) (s : State) : list IntervalRecord :=
  let finalGap := now - lastThoughtTimestamp s in
  if 500 <? finalGap
  then intervals s ++
         [ {| iv_id := Z.of_nat (length (intervals s)) + 1;
              duration := finalGap;
              timestamp := now |} ]
  else intervals s.

(** [now - (sessionStartTime || now)]. *)
Definition totalSessionDuration (now : Z) (s : State) : Z :=
  now - match sessionStartTime s with
        | Some t => if truthy (Num t) then t else now
        | None => now
        end.

Definition sessionStats `{host : Host} (now : Z) (s : State) : SessionRecord :=
  let final := finalIntervals now s in
  {| sr_id := now;
     date := toISOString now;
     sr_intervals := final;
     totalDuration := totalSessionDuration now s;
     thoughtCount := Z.of_nat (length final);
     longestGap := maxDuration final;
     avgGap := (inject_Z (sumDuration final)
                / inject_Z (Z.of_nat (length final)))%Q |}.

Definition endSession `{host : Host} (now : Z) (s : State) : State :=
  if (0 <? length (finalIntervals now s))%nat
  then
    let updatedSessions := sessionStats now s :: allSessions s in
    mkState false (currentInterval s) [] (sessionStartTime s) (personalBest s)
            updatedSessions (lastThoughtTimestamp s)
            (<[STORAGE_KEY_SESSIONS := JSON_stringify updatedSessions]>
               (localStorage s))
  else
    mkState false (currentInterval s) [] (sessionStartTime s) (personalBest s)
            (allSessions s) (lastThoughtTimestamp s) (localStorage s).

Definition deleteSession `{host : Host} (id : Z) (s : State) : State :=
  let updated := filter (fun r => sr_id r ≠ id) (allSessions s) in
  mkState (isActive s) (currentInterval s) (intervals s) (sessionStartTime s)
          (personalBest s) updated (lastThoughtTimestamp s)
          (<[STORAGE_KEY_SESSIONS := JSON_stringify updated]> (localStorage s)).

Definition step `{host : Host} (s : State) (e : event) : State :=
  match e with
  | StartSession now => startSession now s
  | Tick now => tick now s
  | RecordThought now => recordThought now s
  | EndSession now => endSession now s
  | DeleteSession id => deleteSession id s
  end.

Definition run `{host : Host} (tr : list event) (s : State) : State :=
  fold_left step tr s.

(** The events between the start and the end of one session. *)
Definition duringSession (e : event) : bool :=
  match e with
  | Tick _ | RecordThought _ => true
  | _ => false
  end.

(** The clock readings of the thoughts of a run, in order. *)
Fixpoint thoughtTimes (tr : list event) : list Z :=
  match tr with
  | [] => []
  | RecordThought now :: tr' => now :: thoughtTimes tr'
  | _ :: tr' => thoughtTimes tr'
  end.

End MindGapV3.

(** ** The first variant *)

(** The [App] component of [src/unnamed/part_002]: one session at a time,
    no archive; ending a session records the final interval through
    [handleThought(true)] when it is longer than one second. *)
Module MindGap.

Definition STORAGE_KEY_PB : string := "mindgap_personal_best".

Record State : Type := mkState {
  isActive : bool;
  currentInterval : Z;
  intervals : list IntervalRecord;
  sessionStartTime : option Z;
  personalBest : jsnum;
  lastThoughtTimestamp : Z;
  localStorage : gmap string string
}.

Definition startSession (now : Z) (s : State) : State :=
  mkState true 0 [] (Some now) (personalBest s) now (localStorage s).

Definition handleThought (isManualEnd : bool) (now : Z) (s : State) : State :=
  if negb (isActive s) && negb isManualEnd then s
  else
    let duration := now - lastThoughtTimestamp s in
    let newRecord :=
      {| iv_id := Z.of_nat (length (intervals s)) + 1;
         duration := duration;
         timestamp := now |} in
    let raised := gt (Num duration) (personalBest s) in
    mkState (isActive s) 0 (intervals s ++ [newRecord]) (sessionStartTime s)
            (if raised then Num duration else personalBest s) now
            (if raised
             then <[STORAGE_KEY_PB := toString duration]> (localStorage s)
             else localStorage s).

(** [setIsActive(false)], then [handleThought(true)] on the same closure
    when the final interval is longer than 1000 ms. *)
Definition endSession (now : Z) (s : State) : State :=
  let finalInterval := now - lastThoughtTimestamp s in
  let s' := if 1000 <? finalInterval then handleThought true now s else s in
  mkState false (currentInterval s') (intervals s') (sessionStartTime s')
          (personalBest s') (lastThoughtTimestamp s') (localStorage s').

End MindGap.

(** ** Unfolding the model *)

Create HintDb app discriminated.

#[global] Hint Unfold setIsActive setIsPaused setCurrentInterval setIntervals
  setSessionStartTime setPersonalBest setAllSessions setLastUpdateRef
  localStorage_setItem : app.

#[global] Hint Unfold running timerEffect tick startSession togglePause
  recordThought endSession deleteSession : app.

Ltac unfold_app := autounfold with app in *; cbn [isActive isPaused
  currentInterval intervals sessionStartTime personalBest allSessions
  lastUpdateRef localStorage] in *.

(** Splits on every boolean test that is left in the goal. *)
Ltac split_tests :=
  repeat match goal with
         | |- context [if ?b then _ else _] => destruct b eqn:?
         end.

(** ** Examples of the host functions *)

Example parseInt_digits : parseInt "1200" = Num 1200.
Proof. reflexivity. Qed.

Example parseInt_prefix : parseInt "  -42ms" = Num (-42).
Proof. reflexivity. Qed.

Example parseInt_no_digit : parseInt "abc" = NaN.
Proof. reflexivity. Qed.

Example parseInt_toString : parseInt (toString 73150) = Num 73150.
Proof. reflexivity. Qed.

(** ** Recording a thought *)

Section RecordThought.

Context `{host : Host}.

Lemma recordThought_running (now : Z) (s : AppState) :
  isActive s = true -> isPaused s = false ->
  recordThought now s =
    setCurrentInterval 0
      (let s1 := setIntervals
                   (intervals s ++
                      [mkInterval (Z.of_nat (length (intervals s)) + 1)
                                  (currentInterval s) now]) s in
       if gt (Num (currentInterval s)) (personalBest s)
       then localStorage_setItem STORAGE_KEY_PB (toString (currentInterval s))
              (setPersonalBest (Num (currentInterval s)) s1)
       else s1).
Proof.
  intros Ha Hp. unfold recordThought. rewrite Ha, Hp. reflexivity.
Qed.

Lemma recordThought_intervals (now : Z) (s : AppState) :
  isActive s = true -> isPaused s = false ->
  intervals (recordThought now s) =
    intervals s ++ [mkInterval (Z.of_nat (length (intervals s)) + 1)
                               (currentInterval s) now].
Proof.
  intros Ha Hp. rewrite recordThought_running by assumption.
  cbn zeta. destruct (gt _ _); reflexivity.
Qed.

Lemma recordThought_flags (now : Z) (s : AppState) :
  isActive (recordThought now s) = isActive s
  /\ isPaused (recordThought now s) = isPaused s
  /\ lastUpdateRef (recordThought now s) = lastUpdateRef s
  /\ allSessions (recordThought now s) = allSessions s
  /\ sessionStartTime (recordThought now s) = sessionStartTime s.
Proof.
  unfold recordThought.
  destruct (negb (isActive s) || isPaused s); [tauto|].
  cbn zeta. destruct (gt _ _); cbn; tauto.
Qed.

Lemma recordThought_currentInterval (now : Z) (s : AppState) :
  isActive s = true -> isPaused s = false ->
  currentInterval (recordThought now s) = 0.
Proof.
  intros Ha Hp. rewrite recordThought_running by assumption. reflexivity.
Qed.

(** C7: a thought signalled while no session is active, or while the
    session is paused, is ignored: the handler returns its state as it
    found it, so the closed intervals, the open interval's elapsed time,
    the personal best, the archive and the storage are all unchanged. *)
Theorem recordThought_idle_or_paused (now : Z) (s : AppState) :
  isActive s = false \/ isPaused s = true ->
  recordThought now s = s.
Proof.
  intros [Hidle | Hpaused]; unfold recordThought.
  - rewrite Hidle. reflexivity.
  - rewrite Hpaused, orb_true_r. reflexivity.
Qed.

(** C10: live recording has no minimum duration.  In a running session a
    thought closes the open interval at whatever its elapsed time is,
    numbers it after the intervals closed so far and resets the elapsed
    time; a second thought with no tick in between therefore records a
    0 ms interval.  The 500 ms threshold of [endSession] concerns the open
    interval only: every closed interval is kept at the front of the
    final list, whatever its duration. *)
Theorem recordThought_no_threshold (now now' : Z) (s : AppState) :
  isActive s = true -> isPaused s = false ->
  let n := Z.of_nat (length (intervals s)) in
  intervals (recordThought now s) =
    intervals s ++ [mkInterval (n + 1) (currentInterval s) now]
  /\ intervals (recordThought now' (recordThought now s)) =
       intervals s ++ [mkInterval (n + 1) (currentInterval s) now;
                       mkInterval (n + 2) 0 now']
  /\ forall t s', take (length (intervals s')) (finalIntervals t s')
                  = intervals s'.
Proof.
  intros Ha Hp n.
  pose proof (recordThought_flags now s) as (Ha' & Hp' & _).
  split; [apply recordThought_intervals; assumption|].
  split.
  - rewrite recordThought_intervals by congruence.
    rewrite recordThought_currentInterval by assumption.
    rewrite recordThought_intervals by assumption.
    rewrite <- app_assoc, length_app. cbn [length app].
    subst n. do 3 f_equal. f_equal; lia.
  - intros t s'. unfold finalIntervals.
    destruct (500 <? currentInterval s').
    + rewrite take_app_length. reflexivity.
    + apply firstn_all.
Qed.

End RecordThought.

(** ** The timer: ticks, pause and resume *)

Section Timer.

Context `{host : Host}.

Lemma run_app (tr1 tr2 : list event) (s : AppState) :
  run (tr1 ++ tr2) s = run tr2 (run tr1 s).
Proof. apply fold_left_app. Qed.

Lemma run_cons (e : event) (tr : list event) (s : AppState) :
  run (e :: tr) s = run tr (step s e).
Proof. reflexivity. Qed.

Lemma sumZ_app (l1 l2 : list Z) : sumZ (l1 ++ l2) = sumZ l1 + sumZ l2.
Proof.
  induction l1 as [|x l1 IH]; [reflexivity|].
  cbn [app]. unfold sumZ in *. cbn [foldr]. rewrite IH. lia.
Qed.

Lemma last_cons (t d : Z) (ts : list Z) :
  List.last (t :: ts) d = List.last ts t.
Proof.
  revert t d. induction ts as [|u ts IH]; intros t d; [reflexivity|].
  change (List.last (t :: u :: ts) d) with (List.last (u :: ts) d).
  rewrite (IH u d), (IH u t). reflexivity.
Qed.

(** The deltas of consecutive ticks telescope to the time between the
    reference instant and the last tick. *)
Lemma sumZ_tickDeltas (prev : Z) (ts : list Z) :
  sumZ (tickDeltas prev ts) = List.last ts prev - prev.
Proof.
  revert prev. induction ts as [|t ts IH]; intros prev.
  - cbn. lia.
  - rewrite last_cons. cbn [tickDeltas sumZ foldr].
    fold (sumZ (tickDeltas t ts)). rewrite IH.
    assert (H : forall a, List.last ts a - a + (a - prev)
                          = List.last ts a - prev) by (intros; lia).
    specialize (H t). lia.
Qed.

Lemma tick_running (now : Z) (s : AppState) :
  running s = true ->
  tick now s =
    setLastUpdateRef now
      (setCurrentInterval (currentInterval s + (now - lastUpdateRef s)) s).
Proof. intros Hr. unfold tick. rewrite Hr. reflexivity. Qed.

Lemma tick_not_running (now : Z) (s : AppState) :
  running s = false -> tick now s = s.
Proof. intros Hr. unfold tick. rewrite Hr. reflexivity. Qed.

(** Ticks of a running session add up their deltas and leave every other
    cell alone. *)
Lemma run_ticks_running (ts : list Z) (s : AppState) :
  running s = true ->
  run (map Tick ts) s =
    setLastUpdateRef (List.last ts (lastUpdateRef s))
      (setCurrentInterval
         (currentInterval s + sumZ (tickDeltas (lastUpdateRef s) ts)) s).
Proof.
  revert s. induction ts as [|t ts IH]; intros s Hr.
  - destruct s. unfold_app. cbn. f_equal. lia.
  - cbn [map]. rewrite run_cons. cbn [step].
    rewrite tick_running by assumption.
    rewrite IH by exact Hr. rewrite last_cons.
    destruct s. unfold_app. cbn [tickDeltas sumZ foldr]. f_equal.
    unfold sumZ. lia.
Qed.

(** Timer instants at which the session is not running change nothing. *)
Lemma run_ticks_not_running (ts : list Z) (s : AppState) :
  running s = false -> run (map Tick ts) s = s.
Proof.
  intros Hr. induction ts as [|t ts IH]; [reflexivity|].
  cbn [map]. rewrite run_cons. cbn [step].
  rewrite tick_not_running by assumption. exact IH.
Qed.

Lemma togglePause_pauses (now : Z) (s : AppState) :
  isActive s = true -> isPaused s = false ->
  togglePause now s = setIsPaused true s.
Proof.
  intros Ha Hp. destruct s. unfold_app. subst. reflexivity.
Qed.

Lemma togglePause_resumes (now : Z) (s : AppState) :
  isActive s = true -> isPaused s = true ->
  togglePause now s = setLastUpdateRef now (setIsPaused false s).
Proof.
  intros Ha Hp. destruct s. unfold_app. subst. reflexivity.
Qed.

(** A paused stretch, whatever timer instants fall in it, leaves the state
    of a running session as the pause found it, with the flag raised. *)
Lemma run_paused_stretch (p : Z) (ps : list Z) (s : AppState) :
  isActive s = true -> isPaused s = false ->
  run (TogglePause p :: map Tick ps) s = setIsPaused true s.
Proof.
  intros Ha Hp. rewrite run_cons. cbn [step].
  rewrite togglePause_pauses by assumption.
  apply run_ticks_not_running.
  destruct s. unfold_app. subst. reflexivity.
Qed.

(** One whole pause window. *)
Lemma run_window (w : pauseWindow) (s : AppState) :
  isActive s = true -> isPaused s = false ->
  run (windowEvents w) s =
    setLastUpdateRef (List.last (resumedTicks w) (resumeAt w))
      (setCurrentInterval (currentInterval s + sumZ (unpausedDeltas w)) s).
Proof.
  intros Ha Hp. unfold windowEvents.
  change (TogglePause (pauseAt w) :: map Tick (pausedTicks w)
            ++ TogglePause (resumeAt w) :: map Tick (resumedTicks w))
    with ((TogglePause (pauseAt w) :: map Tick (pausedTicks w))
            ++ TogglePause (resumeAt w) :: map Tick (resumedTicks w)).
  rewrite run_app.
  rewrite (run_paused_stretch (pauseAt w) (pausedTicks w) s) by assumption.
  rewrite run_cons. cbn [step].
  rewrite togglePause_resumes by (destruct s; unfold_app; subst; reflexivity).
  rewrite run_ticks_running by (destruct s; unfold_app; subst; reflexivity).
  destruct s. unfold_app. subst. reflexivity.
Qed.

Lemma run_windows (ws : list pauseWindow) (s : AppState) :
  isActive s = true -> isPaused s = false ->
  isActive (run (concat (map windowEvents ws)) s) = true
  /\ isPaused (run (concat (map windowEvents ws)) s) = false
  /\ currentInterval (run (concat (map windowEvents ws)) s)
     = currentInterval s + sumZ (concat (map unpausedDeltas ws)).
Proof.
  revert s. induction ws as [|w ws IH]; intros s Ha Hp.
  - cbn. repeat split; try assumption. lia.
  - cbn [map concat]. rewrite run_app, run_window by assumption.
    destruct (IH (setLastUpdateRef (List.last (resumedTicks w) (resumeAt w))
                    (setCurrentInterval
                       (currentInterval s + sumZ (unpausedDeltas w)) s)))
      as (Ha' & Hp' & Hc); [assumption..|].
    repeat split; try assumption.
    rewrite Hc. cbn [currentInterval setLastUpdateRef setCurrentInterval].
    rewrite sumZ_app. lia.
Qed.

(** C8: the elapsed time of the open interval never includes paused
    wall-clock time.  A timer instant that falls while the session is paused
    changes nothing.  And take a running session, let it tick, and then put
    it through any number of pauses, each with timer instants falling in the
    paused period and ticks following the resume: while paused the elapsed
    time stays where the pause found it, and at the end it is the elapsed
    time at the start plus the deltas of the un-paused ticks alone, each
    measured from the previous tick or from the resume, so neither the
    length of a pause nor the instants inside it contribute. *)
Theorem elapsed_excludes_paused_time :
  (forall (s : AppState) (now : Z), isPaused s = true -> tick now s = s)
  /\ (forall (s : AppState) (ts0 : list Z) (ws : list pauseWindow),
         isActive s = true -> isPaused s = false ->
         (forall p ps,
             currentInterval (run (TogglePause p :: map Tick ps) s)
             = currentInterval s)
         /\ currentInterval
              (run (map Tick ts0 ++ concat (map windowEvents ws)) s)
            = currentInterval s
              + sumZ (tickDeltas (lastUpdateRef s) ts0)
              + sumZ (concat (map unpausedDeltas ws))).
Proof.
  split.
  { intros s now Hp. apply tick_not_running.
    unfold running. rewrite Hp. apply andb_false_r. }
  intros s ts0 ws Ha Hp. split.
  - intros p ps. rewrite run_paused_stretch by assumption. reflexivity.
  - assert (Hr : running s = true) by (unfold running; rewrite Ha, Hp; reflexivity).
    rewrite run_app, run_ticks_running by assumption.
    match goal with
    | |- currentInterval (run _ ?s') = _ =>
        destruct (run_windows ws s') as (_ & _ & Hc); [assumption..|]
    end.
    rewrite Hc. reflexivity.
Qed.

End Timer.

(** ** Ending a session *)

Section EndSession.

Context `{host : Host}.

Lemma endSession_allSessions (now : Z) (s : AppState) :
  allSessions (endSession now s) =
    if (0 <? length (finalIntervals now s))%nat
    then sessionStats now s :: allSessions s
    else allSessions s.
Proof. unfold_app. split_tests; reflexivity. Qed.

Lemma endSession_localStorage (now : Z) (s : AppState) :
  localStorage (endSession now s) =
    if (0 <? length (finalIntervals now s))%nat
    then <[STORAGE_KEY_SESSIONS :=
             JSON_stringify (sessionStats now s :: allSessions s)]>
           (localStorage s)
    else localStorage s.
Proof. unfold_app. split_tests; reflexivity. Qed.

(** [endSession] has no statement that touches the personal best. *)
Lemma endSession_personalBest (now : Z) (s : AppState) :
  personalBest (endSession now s) = personalBest s.
Proof. unfold_app. split_tests; reflexivity. Qed.

Lemma endSession_resets (now : Z) (s : AppState) :
  isActive (endSession now s) = false
  /\ isPaused (endSession now s) = false
  /\ currentInterval (endSession now s) = 0
  /\ intervals (endSession now s) = [].
Proof. unfold_app. split_tests; cbn; try tauto; discriminate. Qed.


Lemma maxDuration_nonneg (l : list IntervalRecord) : 0 <= maxDuration l.
Proof.
  unfold maxDuration. induction l as [|i l IH]; cbn; lia.
Qed.

Lemma maxDuration_upper (l : list IntervalRecord) :
  Forall (fun i => duration i <= maxDuration l) l.
Proof.
  induction l as [|i l IH]; constructor.
  - unfold maxDuration. cbn. lia.
  - eapply Forall_impl; [exact IH|]. intros j Hj.
    unfold maxDuration in *. cbn. lia.
Qed.



(** C2: [endSession] applies the fixed 500 ms threshold to the open
    interval.  When its elapsed time is above 500 ms one more record, with
    that duration and the next id, is appended to the closed intervals, and
    the list so extended is what the archived session holds; at 500 ms or
    below the closed intervals are taken as they are.  A session without a
    closed interval is therefore archived as one session of one thought
    when the open interval exceeds 500 ms, and leaves the archive and the
    storage untouched otherwise. *)
Theorem endSession_threshold (now : Z) (s : AppState) :
  (500 < currentInterval s ->
     finalIntervals now s =
       intervals s ++ [mkInterval (Z.of_nat (length (intervals s)) + 1)
                                  (currentInterval s) now]
     /\ allSessions (endSession now s) = sessionStats now s :: allSessions s
     /\ sr_intervals (sessionStats now s) = finalIntervals now s)
  /\ (currentInterval s <= 500 -> finalIntervals now s = intervals s)
  /\ (intervals s = [] -> 500 < currentInterval s ->
        allSessions (endSession now s) = sessionStats now s :: allSessions s
        /\ thoughtCount (sessionStats now s) = 1
        /\ sr_intervals (sessionStats now s)
           = [mkInterval 1 (currentInterval s) now])
  /\ (intervals s = [] -> currentInterval s <= 500 ->
        allSessions (endSession now s) = allSessions s
        /\ localStorage (endSession now s) = localStorage s).
Proof.
  assert (Hgt : 500 < currentInterval s ->
                finalIntervals now s =
                  intervals s ++ [mkInterval (Z.of_nat (length (intervals s)) + 1)
                                             (currentInterval s) now]).
  { intros H. unfold finalIntervals.
    apply Z.ltb_lt in H. rewrite H. reflexivity. }
  assert (Hle : currentInterval s <= 500 -> finalIntervals now s = intervals s).
  { intros H. unfold finalIntervals.
    apply Z.ltb_ge in H. rewrite H. reflexivity. }
  repeat split.
  - auto.
  - rewrite endSession_allSessions, (Hgt H), length_app.
    cbn [length]. rewrite Nat.add_comm. reflexivity.
  - assumption.
  - rewrite endSession_allSessions, (Hgt H0), H. reflexivity.
  - cbn [thoughtCount sessionStats]. rewrite (Hgt H0), H. reflexivity.
  - cbn [sr_intervals sessionStats]. rewrite (Hgt H0), H. reflexivity.
  - rewrite endSession_allSessions, (Hle H0), H. reflexivity.
  - rewrite endSession_localStorage, (Hle H0), H. reflexivity.
Qed.


End EndSession.

(** ** The personal best *)

Section PersonalBest.

Context `{host : Host}.

Lemma pb_le_refl (a : jsnum) : pb_le a a.
Proof. left. reflexivity. Qed.

Lemma pb_le_trans (a b c : jsnum) : pb_le a b -> pb_le b c -> pb_le a c.
Proof.
  intros [-> | (x & y & -> & -> & Hxy)] [<- | (y' & z & Hy & -> & Hyz)].
  - left. reflexivity.
  - right. eauto.
  - right. eauto.
  - injection Hy as <-. right. exists x, z. repeat split; lia.
Qed.

(** [NaN] is below nothing but itself. *)
Lemma pb_le_NaN (b : jsnum) : pb_le NaN b -> b = NaN.
Proof.
  intros [<- | (x & y & Hx & _)]; [reflexivity | discriminate].
Qed.

Lemma recordThought_personalBest (now : Z) (s : AppState) :
  personalBest (recordThought now s) =
    if running s && gt (Num (currentInterval s)) (personalBest s)
    then Num (currentInterval s)
    else personalBest s.
Proof.
  unfold recordThought, running.
  destruct (isActive s), (isPaused s); cbn [negb orb andb]; try reflexivity.
  destruct (gt _ _); reflexivity.
Qed.

Lemma step_personalBest (e : event) (s : AppState) :
  pb_le (personalBest s) (personalBest (step s e)).
Proof.
  destruct e as [now | now | now | now | now | id]; cbn [step].
  - left. unfold_app. split_tests; reflexivity.
  - left. unfold_app. split_tests; reflexivity.
  - left. unfold_app. split_tests; reflexivity.
  - rewrite recordThought_personalBest.
    destruct (running s); cbn [andb]; [|apply pb_le_refl].
    destruct (personalBest s) as [b|]; cbn [gt]; [|apply pb_le_refl].
    destruct (b <? currentInterval s) eqn:Hlt; [|apply pb_le_refl].
    right. exists b, (currentInterval s). apply Z.ltb_lt in Hlt. auto.
  - left. symmetry. apply endSession_personalBest.
  - left. reflexivity.
Qed.

Lemma run_personalBest (tr : list event) (s : AppState) :
  pb_le (personalBest s) (personalBest (run tr s)).
Proof.
  revert s. induction tr as [|e tr IH]; intros s; [apply pb_le_refl|].
  rewrite run_cons. eapply pb_le_trans; [apply step_personalBest | apply IH].
Qed.

(** C6: the personal best never decreases, whatever sequence of events the
    component handles; and when a running session closes an interval of
    duration x while the best is the number b, the best becomes max(b, x):
    it is raised to x, and written through to the storage, exactly when
    x > b, and is otherwise left as it was. *)
Theorem personalBest_monotone :
  (forall (tr : list event) (s : AppState),
      pb_le (personalBest s) (personalBest (run tr s)))
  /\ (forall (now b : Z) (s : AppState),
         isActive s = true -> isPaused s = false -> personalBest s = Num b ->
         let x := currentInterval s in
         personalBest (recordThought now s) = Num (Z.max b x)
         /\ (b < x ->
             personalBest (recordThought now s) = Num x
             /\ localStorage (recordThought now s) !! STORAGE_KEY_PB
                = Some (toString x))
         /\ (x <= b ->
             personalBest (recordThought now s) = personalBest s
             /\ localStorage (recordThought now s) = localStorage s)).
Proof.
  split; [exact run_personalBest|].
  intros now b s Ha Hp Hb x.
  rewrite recordThought_running by assumption. rewrite Hb. cbn [gt]. cbn zeta.
  fold x. repeat split.
  - destruct (b <? x) eqn:Hlt; cbn [personalBest setCurrentInterval
      localStorage_setItem setPersonalBest setIntervals].
    + apply Z.ltb_lt in Hlt. rewrite Z.max_r by lia. reflexivity.
    + apply Z.ltb_ge in Hlt. rewrite Hb, Z.max_l by lia. reflexivity.
  - apply Z.ltb_lt in H. rewrite H. reflexivity.
  - apply Z.ltb_lt in H. rewrite H. unfold_app. apply lookup_insert_eq.
  - apply Z.ltb_ge in H. rewrite H. cbn. congruence.
  - apply Z.ltb_ge in H. rewrite H. reflexivity.
Qed.

(** C1 at its failing input: a session of one second without any thought is
    ended.  The open interval of 1000 ms is folded into the archived
    session, whose longest gap is 1000, yet the personal best is still 0 and
    nothing has been stored under its key. *)
Theorem endSession_leaves_personalBest :
  map (fun r => map duration (sr_intervals r))
      (allSessions (run silentSession initialState)) = [[1000]]
  /\ map longestGap (allSessions (run silentSession initialState)) = [1000]
  /\ personalBest (run silentSession initialState) = Num 0
  /\ localStorage (run silentSession initialState) !! STORAGE_KEY_PB = None.
Proof. repeat split; vm_compute; reflexivity. Qed.

End PersonalBest.

(** ** Deleting a session *)

Section DeleteSession.

Context `{host : Host}.

Lemma filter_Forall_id {A : Type} (P : A -> Prop) `{!forall x, Decision (P x)}
    (l : list A) :
  Forall P l -> filter P l = l.
Proof.
  induction 1 as [|x l Hx Hl IH]; [reflexivity|].
  rewrite filter_cons_True by assumption. f_equal. exact IH.
Qed.

Lemma Forall_filter_self {A : Type} (P : A -> Prop)
    `{!forall x, Decision (P x)} (l : list A) :
  Forall P (filter P l).
Proof.
  apply Forall_forall. intros x Hx.
  apply list_elem_of_filter in Hx. tauto.
Qed.

Lemma deleteSession_allSessions (id : Z) (s : AppState) :
  allSessions (deleteSession id s)
  = filter (fun r => sr_id r ≠ id) (allSessions s).
Proof. reflexivity. Qed.

(** C5, as amended: [deleteSession id] removes from the archive every
    record whose id is [id] and keeps the others in their order; it removes
    exactly one record when exactly one record of the archive has that id,
    leaves the archive as it is when none has, and deleting twice gives the
    same state as deleting once. *)
Theorem deleteSession_archive (id : Z) (s : AppState) :
  (forall r : SessionRecord,
      r ∈ allSessions (deleteSession id s)
      <-> r ∈ allSessions s /\ sr_id r <> id)
  /\ sublist (allSessions (deleteSession id s)) (allSessions s)
  /\ (forall (l1 l2 : list SessionRecord) (r : SessionRecord),
         allSessions s = l1 ++ r :: l2 -> sr_id r = id ->
         Forall (fun x => sr_id x <> id) (l1 ++ l2) ->
         allSessions (deleteSession id s) = l1 ++ l2)
  /\ (Forall (fun x => sr_id x <> id) (allSessions s) ->
      allSessions (deleteSession id s) = allSessions s)
  /\ deleteSession id (deleteSession id s) = deleteSession id s.
Proof.
  rewrite deleteSession_allSessions.
  split; [|split; [|split; [|split]]].
  - intros r. rewrite list_elem_of_filter. tauto.
  - apply sublist_filter.
  - intros l1 l2 r Hs Hr Hrest. rewrite Hs, filter_app.
    rewrite filter_cons_False by (intros Hne; apply Hne; exact Hr).
    rewrite <- filter_app. apply filter_Forall_id. exact Hrest.
  - apply filter_Forall_id.
  - unfold deleteSession at 1 3.
    rewrite deleteSession_allSessions.
    rewrite (filter_Forall_id _ (filter _ _)) by apply Forall_filter_self.
    unfold_app. f_equal. apply insert_insert_eq.
Qed.

(** C9: deleting a session never changes the personal best, neither the
    cell in memory nor the record stored under its key; this holds for
    every archive, id and personal best, so also when the deleted session
    held the interval the personal best came from. *)
Theorem deleteSession_keeps_personalBest (id : Z) (s : AppState) :
  personalBest (deleteSession id s) = personalBest s
  /\ localStorage (deleteSession id s) !! STORAGE_KEY_PB
     = localStorage s !! STORAGE_KEY_PB.
Proof.
  split; [reflexivity|].
  unfold_app. apply lookup_insert_ne. discriminate.
Qed.

End DeleteSession.

(** ** Loading the persisted state *)

Section LoadData.

Context `{host : Host}.

(** The archive half of the recovery: a stored archive text that the
    parser rejects is caught, and the archive is reset to the empty list. *)
Lemma loadData_unparseable_sessions (s : AppState) (stored : string) :
  localStorage s !! STORAGE_KEY_SESSIONS = Some stored ->
  JSON_parse stored = None ->
  allSessions (loadData s) = [] \/ (stored = ""%string
                                    /\ allSessions (loadData s) = allSessions s).
Proof.
  intros Hget Hparse. unfold loadData. rewrite Hget.
  destruct stored as [|c rest]; cbn [nonEmpty].
  - right. split; [reflexivity|].
    destruct (localStorage s !! STORAGE_KEY_PB) as [pb|]; [|reflexivity].
    destruct (nonEmpty pb); reflexivity.
  - left. rewrite Hparse. reflexivity.
Qed.

(** A personal best written by [recordThought] is read back as written. *)
Lemma loadData_personalBest (s : AppState) (stored : string) :
  localStorage s !! STORAGE_KEY_PB = Some stored ->
  nonEmpty stored = true ->
  personalBest (loadData s) = parseInt stored.
Proof.
  intros Hget Hne. unfold loadData. rewrite Hget, Hne.
  destruct (localStorage s !! STORAGE_KEY_SESSIONS) as [str|]; [|reflexivity].
  destruct (nonEmpty str); [|reflexivity].
  destruct (JSON_parse str); reflexivity.
Qed.

(** C4 at its failing input: the text stored under the personal-best key is
    ["abc"].  The load sets the personal best to [NaN], which is not the
    zero default, and no later sequence of events moves it from there. *)
Theorem loadData_unparseable_personalBest :
  personalBest
    (loadData (localStorage_setItem STORAGE_KEY_PB "abc" initialState)) = NaN
  /\ personalBest
       (loadData (localStorage_setItem STORAGE_KEY_PB "abc" initialState))
     <> Num 0
  /\ forall tr : list event,
       personalBest
         (run tr (loadData
                    (localStorage_setItem STORAGE_KEY_PB "abc" initialState)))
       = NaN.
Proof.
  assert (Hnan : personalBest
                   (loadData
                      (localStorage_setItem STORAGE_KEY_PB "abc" initialState))
                 = NaN) by (vm_compute; reflexivity).
  split; [exact Hnan|]. split; [rewrite Hnan; discriminate|].
  intros tr. apply pb_le_NaN. rewrite <- Hnan at 1. apply run_personalBest.
Qed.

End LoadData.

(** ** The theorems at concrete inputs *)

Section Samples.

#[local] Existing Instance sampleHost.

(** Two sessions finished at the same clock reading share their id, and
    deleting by that id removes both of them, not exactly one. *)
Lemma deleteSession_twin_sessions :
  map sr_id (allSessions (run twinSessions initialState))
  = [sameReading; sameReading]
  /\ allSessions (deleteSession sameReading (run twinSessions initialState))
     = []
  /\ length (allSessions
               (deleteSession sameReading (run twinSessions initialState)))
     <> (length (allSessions (run twinSessions initialState)) - 1)%nat.
Proof.
  split; [vm_compute; reflexivity|].
  split; [vm_compute; reflexivity|].
  vm_compute. discriminate.
Qed.

Lemma recordThought_idle_or_paused_witness :
  (isActive initialState = false \/ isPaused initialState = true)
  /\ recordThought 5 initialState = initialState.
Proof.
  split; [left; reflexivity|].
  apply (recordThought_idle_or_paused 5 initialState). left. reflexivity.
Defined.

Lemma recordThought_no_threshold_witness :
  isActive (run [StartSession 1000] initialState) = true
  /\ isPaused (run [StartSession 1000] initialState) = false
  /\ intervals (recordThought 1000
                  (recordThought 1000 (run [StartSession 1000] initialState)))
     = [mkInterval 1 0 1000; mkInterval 2 0 1000].
Proof.
  split; [reflexivity|]. split; [reflexivity|].
  apply (recordThought_no_threshold 1000 1000
           (run [StartSession 1000] initialState)); reflexivity.
Defined.

Lemma endSession_threshold_witness :
  (intervals (run (StartSession 1000 :: ticksAfter 1000 10) initialState) = []
   /\ 500 < currentInterval
              (run (StartSession 1000 :: ticksAfter 1000 10) initialState)
   /\ thoughtCount
        (sessionStats 2000
           (run (StartSession 1000 :: ticksAfter 1000 10) initialState)) = 1)
  /\ (intervals (run (StartSession 1000 :: ticksAfter 1000 3) initialState) = []
      /\ currentInterval
           (run (StartSession 1000 :: ticksAfter 1000 3) initialState) <= 500
      /\ allSessions
           (endSession 1300
              (run (StartSession 1000 :: ticksAfter 1000 3) initialState))
         = []).
Proof.
  split.
  - split; [reflexivity|]. split; [reflexivity|].
    apply (endSession_threshold 2000
             (run (StartSession 1000 :: ticksAfter 1000 10) initialState));
      reflexivity.
  - split; [reflexivity|]. split; [discriminate|].
    apply (endSession_threshold 1300
             (run (StartSession 1000 :: ticksAfter 1000 3) initialState));
      [reflexivity | discriminate].
Defined.

Lemma deleteSession_archive_witness :
  map sr_id (allSessions (run (scenario 5000 ++ scenario 9000) initialState))
  = [11300; 7300]
  /\ map sr_id
       (allSessions
          (deleteSession 7300
             (run (scenario 5000 ++ scenario 9000) initialState)))
     = [11300]
  /\ allSessions
       (deleteSession 1 (run (scenario 5000 ++ scenario 9000) initialState))
     = allSessions (run (scenario 5000 ++ scenario 9000) initialState).
Proof.
  split; [reflexivity|].
  destruct (deleteSession_archive 7300
              (run (scenario 5000 ++ scenario 9000) initialState))
    as (_ & _ & Hone & _).
  destruct (deleteSession_archive 1
              (run (scenario 5000 ++ scenario 9000) initialState))
    as (_ & _ & _ & Hnone & _).
  split.
  - erewrite (Hone [_] [] _).
    2: vm_compute; reflexivity.
    2: reflexivity.
    2: repeat constructor; discriminate.
    reflexivity.
  - apply Hnone. vm_compute. repeat constructor; discriminate.
Defined.

Lemma personalBest_monotone_witness :
  isActive (run (StartSession 1000 :: ticksAfter 1000 10) initialState) = true
  /\ isPaused (run (StartSession 1000 :: ticksAfter 1000 10) initialState)
     = false
  /\ personalBest (run (StartSession 1000 :: ticksAfter 1000 10) initialState)
     = Num 0
  /\ personalBest
       (recordThought 2000
          (run (StartSession 1000 :: ticksAfter 1000 10) initialState))
     = Num 1000.
Proof.
  split; [reflexivity|]. split; [reflexivity|]. split; [reflexivity|].
  apply (proj2 personalBest_monotone 2000 0
           (run (StartSession 1000 :: ticksAfter 1000 10) initialState));
    reflexivity.
Defined.

(** The pause scenario: the timer has brought the elapsed time to 500 ms,
    the session is paused at 600 and resumed at 5000, and the tick at 5100
    brings the elapsed time to 600 ms. *)
Lemma elapsed_excludes_paused_time_witness :
  (isPaused (run [StartSession 0; TogglePause 600] initialState) = true
   /\ tick 700 (run [StartSession 0; TogglePause 600] initialState)
      = run [StartSession 0; TogglePause 600] initialState)
  /\ isActive (run (StartSession 0 :: ticksAfter 0 5) initialState) = true
  /\ isPaused (run (StartSession 0 :: ticksAfter 0 5) initialState) = false
  /\ currentInterval (run (StartSession 0 :: ticksAfter 0 5) initialState)
     = 500
  /\ currentInterval
       (run (map Tick []
               ++ concat (map windowEvents [mkWindow 600 [700; 800] 5000 [5100]]))
            (run (StartSession 0 :: ticksAfter 0 5) initialState))
     = 600.
Proof.
  split.
  { split; [reflexivity|].
    apply (proj1 elapsed_excludes_paused_time
             (run [StartSession 0; TogglePause 600] initialState) 700).
    reflexivity. }
  split; [reflexivity|]. split; [reflexivity|]. split; [reflexivity|].
  rewrite (proj2 (proj2 elapsed_excludes_paused_time
                    (run (StartSession 0 :: ticksAfter 0 5) initialState)
                    [] [mkWindow 600 [700; 800] 5000 [5100]]
                    eq_refl eq_refl)).
  reflexivity.
Defined.

End Samples.

(** ** Numbers written to the storage and read back *)

Section StoredNumbers.

(** Reads the digit at the head of the text in the goal. *)
Ltac read_digit :=
  change (String.append (String ?c ?s) ?r) with (String c (String.append s r));
  cbn [readDigits];
  match goal with
  | |- context [digitOf ?c] =>
      let v := eval vm_compute in (digitOf c) in
      change (digitOf c) with v
  end;
  cbn [default from_option id].

Lemma readDigits_stop (v : Z) (rest : string) :
  notDigitHead rest -> readDigits (Some v) rest = Some v.
Proof.
  destruct rest as [|c rest]; [reflexivity|].
  cbn [notDigitHead readDigits]. intros ->. reflexivity.
Qed.

Lemma readDigits_uint_acc (d : Decimal.uint) (acc : positive) (rest : string) :
  notDigitHead rest ->
  readDigits (Some (Z.pos acc))
    (String.append (NilEmpty.string_of_uint d) rest)
  = Some (Z.pos (Pos.of_uint_acc d acc)).
Proof.
  intros Hrest. revert acc.
  induction d as [|d IH|d IH|d IH|d IH|d IH|d IH|d IH|d IH|d IH|d IH];
    intros acc;
    [ apply readDigits_stop; assumption
    | cbn [NilEmpty.string_of_uint Pos.of_uint_acc]; read_digit;
      match goal with
      | |- readDigits (Some ?a) _ = Some (Z.pos (Pos.of_uint_acc _ ?b)) =>
          replace a with (Z.pos b) by lia
      end;
      apply IH .. ].
Qed.

Lemma readDigits_uint_zero (d : Decimal.uint) (rest : string) :
  notDigitHead rest ->
  readDigits (Some 0) (String.append (NilEmpty.string_of_uint d) rest)
  = Some (Z.of_N (Pos.of_uint d)).
Proof.
  intros Hrest.
  induction d as [|d IH|d IH|d IH|d IH|d IH|d IH|d IH|d IH|d IH|d IH];
    [ apply readDigits_stop; assumption
    | cbn [NilEmpty.string_of_uint Pos.of_uint]; read_digit; exact IH
    | cbn [NilEmpty.string_of_uint Pos.of_uint Z.of_N]; read_digit;
      match goal with
      | |- readDigits (Some ?a) _ = Some (Z.pos (Pos.of_uint_acc _ ?b)) =>
          change a with (Z.pos b)
      end;
      apply readDigits_uint_acc; assumption .. ].
Qed.

(** A number's decimal text starts with a digit. *)
Lemma readDigits_uint (d : Decimal.uint) (rest : string) :
  d <> Decimal.Nil -> notDigitHead rest ->
  skipWhiteSpace (String.append (NilEmpty.string_of_uint d) rest)
  = String.append (NilEmpty.string_of_uint d) rest
  /\ parseInt (String.append (NilEmpty.string_of_uint d) rest)
     = Num (Z.of_N (Pos.of_uint d))
  /\ parseInt (String "-" (String.append (NilEmpty.string_of_uint d) rest))
     = Num (- Z.of_N (Pos.of_uint d)).
Proof.
  intros Hd Hrest.
  pose proof (readDigits_uint_zero d rest Hrest) as Hz.
  destruct d; [congruence|..];
    cbn [NilEmpty.string_of_uint] in *;
    change (String.append (String ?c ?s) ?r)
      with (String c (String.append s r)) in *;
    (split; [reflexivity|]);
    split;
    unfold parseInt;
    match goal with
    | |- context [skipWhiteSpace ?t] =>
        change (skipWhiteSpace t) with t
    end;
    cbv beta iota zeta;
    cbn [readDigits] in *;
    match goal with
    | H : context [digitOf ?c] |- _ =>
        let v := eval vm_compute in (digitOf c) in
        change (digitOf c) with v in *
    end;
    cbn [default from_option id] in *;
    change (10 * 0 + 0) with 0 in *;
    rewrite Hz; f_equal; lia.
Qed.

(** The tail form of the round trip: the decimal text of an integer,
    followed by anything that does not continue the number, is read back as
    that integer. *)
Lemma parseInt_toString_tail (z : Z) (rest : string) :
  notDigitHead rest ->
  parseInt (String.append (toString z) rest) = Num z.
Proof.
  intros Hrest. unfold toString.
  assert (Hnz : forall d, d <> Decimal.Nil ->
                  NilZero.string_of_uint d = NilEmpty.string_of_uint d)
    by (intros [] Hd; congruence || reflexivity).
  destruct z as [|p|p]; cbn [Z.to_int NilZero.string_of_int].
  - destruct (readDigits_uint (Decimal.D0 Decimal.Nil) rest) as (_ & H & _);
      [discriminate | assumption | exact H].
  - pose proof (DecimalPos.Unsigned.to_uint_nonnil p) as Hnil.
    destruct (readDigits_uint (Pos.to_uint p) rest Hnil Hrest) as (_ & H & _).
    rewrite Hnz, H, DecimalPos.Unsigned.of_to by assumption. reflexivity.
  - pose proof (DecimalPos.Unsigned.to_uint_nonnil p) as Hnil.
    destruct (readDigits_uint (Pos.to_uint p) rest Hnil Hrest) as (_ & _ & H).
    rewrite Hnz by assumption.
    change (String.append (String ?c ?s) ?r)
      with (String c (String.append s r)).
    rewrite H, DecimalPos.Unsigned.of_to. reflexivity.
Qed.

Lemma append_empty_r (s : string) : String.append s "" = s.
Proof.
  induction s as [|c s IH]; [reflexivity|].
  change (String.append (String c s) "") with (String c (String.append s "")).
  rewrite IH. reflexivity.
Qed.

Lemma toString_nonEmpty (z : Z) : nonEmpty (toString z) = true.
Proof.
  unfold toString. destruct z as [|p|p]; cbn [Z.to_int NilZero.string_of_int];
    try reflexivity.
  pose proof (DecimalPos.Unsigned.to_uint_nonnil p) as Hnil.
  unfold NilZero.string_of_uint.
  destruct (Pos.to_uint p); [congruence|reflexivity..].
Qed.

(** X1: what [recordThought] writes for a personal best, [parseInt] reads
    back: the decimal text of any integer parses to that integer. *)
Theorem parseInt_toString_roundtrip (z : Z) : parseInt (toString z) = Num z.
Proof.
  rewrite <- (append_empty_r (toString z)).
  apply parseInt_toString_tail. exact I.
Qed.

End StoredNumbers.

(** ** What the storage holds *)

Section Persistence.

Context `{host : Host}.

Lemma STORAGE_KEYS_differ : STORAGE_KEY_SESSIONS <> STORAGE_KEY_PB.
Proof. discriminate. Qed.

(** Only [recordThought] writes under the personal-best key, and only when
    it raises the best. *)
Lemma step_personalBest_storage (e : event) (s : AppState) :
  (personalBest (step s e) = personalBest s
   /\ localStorage (step s e) !! STORAGE_KEY_PB
      = localStorage s !! STORAGE_KEY_PB)
  \/ (exists x : Z,
         personalBest (step s e) = Num x
         /\ localStorage (step s e) !! STORAGE_KEY_PB = Some (toString x)).
Proof.
  destruct e as [now | now | now | now | now | id]; cbn [step].
  - left. unfold_app. split_tests; split; reflexivity.
  - left. unfold_app. split_tests; split; reflexivity.
  - left. unfold_app. split_tests; split; reflexivity.
  - unfold recordThought.
    destruct (negb (isActive s) || isPaused s); [left; split; reflexivity|].
    cbn zeta. destruct (gt _ _).
    + right. exists (currentInterval s). split; [reflexivity|].
      unfold_app. apply lookup_insert_eq.
    + left. split; reflexivity.
  - left. split; [apply endSession_personalBest|].
    rewrite endSession_localStorage.
    destruct (0 <? length (finalIntervals now s))%nat; [|reflexivity].
    apply lookup_insert_ne, STORAGE_KEYS_differ.
  - left. split; [reflexivity|].
    unfold deleteSession, localStorage_setItem. cbn [localStorage].
    apply lookup_insert_ne, STORAGE_KEYS_differ.
Qed.

Lemma step_personalBestPersisted (e : event) (s : AppState) :
  personalBestPersisted s -> personalBestPersisted (step s e).
Proof.
  intros (b & Hb & Hls).
  destruct (step_personalBest_storage e s) as [[Hpb Hkey] | (x & Hpb & Hkey)].
  - exists b. rewrite Hpb, Hkey. split; assumption.
  - exists x. split; [assumption|]. left. assumption.
Qed.

Lemma run_personalBestPersisted (tr : list event) (s : AppState) :
  personalBestPersisted s -> personalBestPersisted (run tr s).
Proof.
  revert s. induction tr as [|e tr IH]; intros s Hs; [exact Hs|].
  rewrite run_cons. apply IH, step_personalBestPersisted, Hs.
Qed.

Lemma remount_personalBest (s : AppState) :
  personalBestPersisted s -> personalBest (remount s) = personalBest s.
Proof.
  intros (b & Hb & [Hkey | [-> Hkey]]); rewrite Hb; unfold remount.
  - erewrite loadData_personalBest;
      [apply parseInt_toString_roundtrip | exact Hkey | apply toString_nonEmpty].
  - unfold loadData. cbn [localStorage]. rewrite Hkey.
    destruct (_ !! STORAGE_KEY_SESSIONS) as [str|]; [|reflexivity].
    destruct (nonEmpty str); [|reflexivity].
    destruct (JSON_parse str); reflexivity.
Qed.

(** X2: the personal best survives a reload.  From a state whose storage
    agrees with the personal best in memory (a fresh installation is one),
    every sequence of events leaves a state of the same kind, and reloading
    the page from its storage restores the personal best it had. *)
Theorem personalBest_survives_reload (tr : list event) (s : AppState) :
  personalBestPersisted s ->
  personalBestPersisted (run tr s)
  /\ personalBest (remount (run tr s)) = personalBest (run tr s).
Proof.
  intros Hs. pose proof (run_personalBestPersisted tr s Hs) as Hrun.
  split; [exact Hrun | apply remount_personalBest, Hrun].
Qed.

(** The events that leave the archive alone leave its text in the storage
    alone. *)
Lemma step_archive_storage (e : event) (s : AppState) :
  (allSessions (step s e) = allSessions s
   /\ localStorage (step s e) !! STORAGE_KEY_SESSIONS
      = localStorage s !! STORAGE_KEY_SESSIONS)
  \/ archivePersisted (step s e).
Proof.
  destruct e as [now | now | now | now | now | id]; cbn [step].
  - left. unfold_app. split_tests; split; reflexivity.
  - left. unfold_app. split_tests; split; reflexivity.
  - left. unfold_app. split_tests; split; reflexivity.
  - left. unfold recordThought.
    destruct (negb (isActive s) || isPaused s); [split; reflexivity|].
    cbn zeta. destruct (gt _ _); split; try reflexivity.
    unfold_app. apply lookup_insert_ne. discriminate.
  - unfold archivePersisted.
    rewrite endSession_allSessions, endSession_localStorage.
    destruct (0 <? length (finalIntervals now s))%nat.
    + right. apply lookup_insert_eq.
    + left. split; reflexivity.
  - right. unfold archivePersisted, deleteSession.
    unfold_app. apply lookup_insert_eq.
Qed.

(** X3: the archive is written through.  An event that changes the archive
    in memory leaves its text in the storage; a state whose storage holds
    the text of its archive stays so under every event; and on a fresh
    installation, where nothing is stored yet, the archive is empty until
    the first write. *)
Theorem archive_written_through :
  (forall (e : event) (s : AppState),
      allSessions (step s e) <> allSessions s -> archivePersisted (step s e))
  /\ (forall (tr : list event) (s : AppState),
         archivePersisted s -> archivePersisted (run tr s))
  /\ (forall tr : list event,
         archivePersisted (run tr initialState)
         \/ (localStorage (run tr initialState) !! STORAGE_KEY_SESSIONS = None
             /\ allSessions (run tr initialState) = [])).
Proof.
  assert (Hstep : forall e s, archivePersisted s -> archivePersisted (step s e)).
  { intros e s Hs.
    destruct (step_archive_storage e s) as [[Ha Hk] | H]; [|exact H].
    unfold archivePersisted in *. rewrite Ha, Hk. exact Hs. }
  assert (Hrun : forall tr s, archivePersisted s -> archivePersisted (run tr s)).
  { induction tr as [|e tr IH]; intros s Hs; [exact Hs|].
    rewrite run_cons. apply IH, Hstep, Hs. }
  split; [|split].
  - intros e s Hneq.
    destruct (step_archive_storage e s) as [[Ha _] | H]; [congruence | exact H].
  - exact Hrun.
  - assert (Hgen : forall tr s,
               localStorage s !! STORAGE_KEY_SESSIONS = None ->
               allSessions s = [] ->
               archivePersisted (run tr s)
               \/ (localStorage (run tr s) !! STORAGE_KEY_SESSIONS = None
                   /\ allSessions (run tr s) = [])).
    { induction tr as [|e tr IH]; intros s Hk Ha; [right; split; assumption|].
      rewrite run_cons.
      destruct (step_archive_storage e s) as [[Ha' Hk'] | H].
      - apply IH; congruence.
      - left. apply Hrun, H. }
    intros tr. apply Hgen; reflexivity.
Qed.

End Persistence.

(** ** Invariants over runs *)

Section Invariants.

Context `{host : Host}.

Lemma sequentialIds_nil : sequentialIds [].
Proof. reflexivity. Qed.

Lemma sequentialIds_snoc (l : list IntervalRecord) (d t : Z) :
  sequentialIds l ->
  sequentialIds (l ++ [mkInterval (Z.of_nat (length l) + 1) d t]).
Proof.
  unfold sequentialIds. intros Hl.
  rewrite map_app, length_app. cbn [length map iv_id].
  rewrite Nat.add_comm. cbn [Nat.add].
  rewrite seq_S, map_app, Hl. cbn [map]. do 2 f_equal. lia.
Qed.

Lemma finalIntervals_sequential (now : Z) (s : AppState) :
  sequentialIds (intervals s) -> sequentialIds (finalIntervals now s).
Proof.
  intros Hs. unfold finalIntervals.
  destruct (500 <? currentInterval s); [|exact Hs].
  apply sequentialIds_snoc, Hs.
Qed.

Lemma sessionStats_wellFormed (now : Z) (s : AppState) :
  sequentialIds (intervals s) ->
  finalIntervals now s <> [] ->
  wellFormedSession (sessionStats now s).
Proof.
  intros Hs Hne. unfold wellFormedSession.
  cbn [sr_intervals thoughtCount longestGap sessionStats].
  split; [exact Hne|]. split; [reflexivity|].
  split; [apply finalIntervals_sequential, Hs|].
  split; [apply maxDuration_upper | apply maxDuration_nonneg].
Qed.

Lemma step_intervals (e : event) (s : AppState) :
  intervals (step s e) = intervals s
  \/ intervals (step s e) = []
  \/ exists d t,
       intervals (step s e)
       = intervals s ++ [mkInterval (Z.of_nat (length (intervals s)) + 1) d t].
Proof.
  destruct e as [now | now | now | now | now | id]; cbn [step].
  - right. left. unfold_app. split_tests; reflexivity.
  - left. unfold_app. split_tests; reflexivity.
  - left. unfold_app. split_tests; reflexivity.
  - unfold recordThought.
    destruct (negb (isActive s) || isPaused s); [left; reflexivity|].
    right. right. exists (currentInterval s), now.
    cbn zeta. destruct (gt _ _); reflexivity.
  - right. left. apply endSession_resets.
  - left. reflexivity.
Qed.

Lemma step_allSessions (e : event) (s : AppState) :
  allSessions (step s e) = allSessions s
  \/ (exists now, e = EndSession now
                  /\ finalIntervals now s <> []
                  /\ allSessions (step s e) = sessionStats now s :: allSessions s)
  \/ (exists id, allSessions (step s e)
                 = filter (fun r => sr_id r ≠ id) (allSessions s)).
Proof.
  destruct e as [now | now | now | now | now | id]; cbn [step].
  - left. unfold_app. split_tests; reflexivity.
  - left. unfold_app. split_tests; reflexivity.
  - left. unfold_app. split_tests; reflexivity.
  - left. apply recordThought_flags.
  - rewrite endSession_allSessions.
    destruct (finalIntervals now s) as [|i l] eqn:E; [left; reflexivity|].
    right. left. exists now. rewrite E. repeat split. discriminate.
  - right. right. exists id. reflexivity.
Qed.

Lemma Forall_filter_keep {A : Type} (P Q : A -> Prop)
    `{!forall x, Decision (Q x)} (l : list A) :
  Forall P l -> Forall P (filter Q l).
Proof.
  intros HP. apply Forall_forall. intros x Hx.
  apply list_elem_of_filter in Hx. destruct Hx as [_ Hx].
  rewrite Forall_forall in HP. apply HP, Hx.
Qed.

(** X5: the data-model invariant of the archive.  From a state whose open
    session has its interval ids counting 1, 2, 3, ... and whose archive is
    well formed (a fresh installation is one), every sequence of events
    leads to a state of the same kind: every archived session has at least
    one interval, a [thoughtCount] equal to the number of its intervals,
    interval ids counting from 1, and a [longestGap] that is non-negative
    and bounds every duration. *)
Theorem archive_stays_well_formed (tr : list event) (s : AppState) :
  sequentialIds (intervals s) ->
  Forall wellFormedSession (allSessions s) ->
  sequentialIds (intervals (run tr s))
  /\ Forall wellFormedSession (allSessions (run tr s)).
Proof.
  revert s. induction tr as [|e tr IH]; intros s Hids Hwf; [split; assumption|].
  rewrite run_cons. apply IH.
  - destruct (step_intervals e s) as [-> | [-> | (d & t & ->)]].
    + exact Hids.
    + apply sequentialIds_nil.
    + apply sequentialIds_snoc, Hids.
  - destruct (step_allSessions e s)
      as [-> | [(now & _ & Hne & ->) | (id & ->)]].
    + exact Hwf.
    + constructor; [apply sessionStats_wellFormed; assumption | exact Hwf].
    + apply Forall_filter_keep, Hwf.
Qed.

(** X6: nothing of a session is left behind.  From a state that is clean
    (no session active, no closed interval, no elapsed time) or has a
    session active, every sequence of events, in whatever order, leads to a
    state where, if no session is active, there is no closed interval and
    the elapsed time is 0. *)
Theorem idle_state_is_clean (tr : list event) (s : AppState) :
  (isActive s = false -> intervals s = [] /\ currentInterval s = 0) ->
  isActive (run tr s) = false ->
  intervals (run tr s) = [] /\ currentInterval (run tr s) = 0.
Proof.
  revert s. induction tr as [|e tr IH]; intros s Hs; [exact Hs|].
  rewrite run_cons. apply IH.
  destruct e as [now | now | now | now | now | id]; cbn [step].
  - unfold_app. split_tests; cbn; discriminate.
  - unfold tick, running.
    destruct (isActive s) eqn:Ha; cbn [andb];
      [|intros _; apply Hs; reflexivity].
    destruct (negb (isPaused s)); [|intros; congruence].
    unfold_app. intros. congruence.
  - unfold_app. split_tests; cbn; exact Hs.
  - unfold recordThought.
    destruct (isActive s) eqn:Ha; cbn [negb orb];
      [|intros _; apply Hs; reflexivity].
    destruct (isPaused s); [intros; congruence|].
    cbn zeta. destruct (gt _ _); unfold_app; intros; congruence.
  - intros _. split; apply endSession_resets.
  - exact Hs.
Qed.

Lemma fold_left_add (A : Type) (f : A -> Z) (l : list A) (a : Z) :
  fold_left (fun acc r => acc + f r) l a = a + sumZ (map f l).
Proof.
  revert a. induction l as [|x l IH]; intros a; cbn [fold_left map].
  - unfold sumZ. cbn. lia.
  - rewrite IH. unfold sumZ. cbn [foldr]. lia.
Qed.

Lemma count_sumZ (s : AppState) :
  count (liveStats s) = sumZ (map thoughtCount (allSessions s)).
Proof. cbn [count liveStats]. rewrite fold_left_add. lia. Qed.

Lemma liveTotalDuration_sumZ (s : AppState) :
  liveTotalDuration (liveStats s) = sumZ (map totalDuration (allSessions s)).
Proof. cbn [liveTotalDuration liveStats]. rewrite fold_left_add. lia. Qed.

Lemma sumZ_filter_split {A : Type} (f : A -> Z) (P : A -> Prop)
    `{!forall x, Decision (P x)} (l : list A) :
  sumZ (map f l)
  = sumZ (map f (filter P l)) + sumZ (map f (filter (fun x => ~ P x) l)).
Proof.
  induction l as [|x l IH]; [reflexivity|].
  destruct (decide (P x)) as [Hx | Hx].
  - rewrite (filter_cons_True P) by assumption.
    rewrite (filter_cons_False (fun x => ~ P x)) by tauto.
    cbn [map]. unfold sumZ in *. cbn [foldr]. lia.
  - rewrite (filter_cons_False P) by assumption.
    rewrite (filter_cons_True (fun x => ~ P x)) by assumption.
    cbn [map]. unfold sumZ in *. cbn [foldr]. lia.
Qed.

(** X7: how the footer totals move.  Ending a session adds to the total
    thought count exactly the number of intervals of the final list (none
    when the session leaves no trace) and to the total time the session's
    total duration when the session is archived; deleting by id takes away
    exactly the thoughts and the time of the records with that id. *)
Theorem liveStats_totals (s : AppState) :
  (forall now : Z,
      count (liveStats (endSession now s))
      = count (liveStats s) + Z.of_nat (length (finalIntervals now s))
      /\ liveTotalDuration (liveStats (endSession now s))
         = liveTotalDuration (liveStats s)
           + (if (0 <? length (finalIntervals now s))%nat
              then totalSessionDuration now s else 0))
  /\ (forall id : Z,
         count (liveStats s)
         = count (liveStats (deleteSession id s))
           + sumZ (map thoughtCount
                     (filter (fun r => sr_id r = id) (allSessions s)))
         /\ liveTotalDuration (liveStats s)
            = liveTotalDuration (liveStats (deleteSession id s))
              + sumZ (map totalDuration
                        (filter (fun r => sr_id r = id) (allSessions s)))).
Proof.
  split.
  - intros now. rewrite !count_sumZ, !liveTotalDuration_sumZ.
    rewrite endSession_allSessions.
    destruct (finalIntervals now s) as [|i l] eqn:E.
    + cbn. unfold sumZ. split; lia.
    + cbn [length Nat.ltb Nat.leb map].
      unfold sumZ. cbn [foldr thoughtCount totalDuration sessionStats].
      rewrite E. cbn [length]. split; lia.
  - intros id. rewrite !count_sumZ, !liveTotalDuration_sumZ.
    rewrite deleteSession_allSessions.
    rewrite (sumZ_filter_split thoughtCount (fun r => sr_id r ≠ id)).
    rewrite (sumZ_filter_split totalDuration (fun r => sr_id r ≠ id)).
    assert (Hf : filter (fun r => ~ sr_id r ≠ id) (allSessions s)
                 = filter (fun r => sr_id r = id) (allSessions s)).
    { apply list_filter_iff. intros r. split; [|tauto].
      intros H. destruct (decide (sr_id r = id)); tauto. }
    rewrite Hf. split; lia.
Qed.

(** X8: on a well-formed archive the footer's total is the number of
    intervals the archive holds. *)
Theorem liveStats_count_intervals (s : AppState) :
  Forall wellFormedSession (allSessions s) ->
  count (liveStats s)
  = Z.of_nat (length (concat (map sr_intervals (allSessions s)))).
Proof.
  intros Hwf. rewrite count_sumZ.
  induction Hwf as [|r l Hr Hl IH]; [reflexivity|].
  cbn [map concat]. rewrite length_app.
  unfold sumZ in *. cbn [foldr]. rewrite IH.
  destruct Hr as (_ & Hn & _). rewrite Hn. lia.
Qed.

End Invariants.

(** ** The journal's groups *)

Section Journal.

Variable dateKey : string -> string.

Lemma pushGroup_keys (k : string) (r : SessionRecord)
    (groups : list (string * list SessionRecord)) :
  (k ∈ map fst groups /\ map fst (pushGroup k r groups) = map fst groups)
  \/ ((k ∉ map fst groups)
      /\ map fst (pushGroup k r groups) = map fst groups ++ [k]).
Proof.
  induction groups as [|[k' g] rest IH]; cbn [pushGroup map fst].
  - right. split; [apply not_elem_of_nil | reflexivity].
  - destruct (String.eqb_spec k' k) as [-> | Hne].
    + left. split; [apply list_elem_of_here | reflexivity].
    + cbn [map fst]. destruct IH as [[Hin Heq] | [Hnin Heq]].
      * left. split; [right; exact Hin | rewrite Heq; reflexivity].
      * right. split; [|rewrite Heq; reflexivity].
        intros Hin. apply elem_of_cons in Hin. destruct Hin; congruence.
Qed.

Lemma entry_key_in (k : string) (g : list SessionRecord)
    (groups : list (string * list SessionRecord)) :
  (k, g) ∈ groups -> k ∈ map fst groups.
Proof.
  intros Hin. apply (list_elem_of_fmap_2 fst) in Hin. exact Hin.
Qed.

Lemma pushGroup_entries (k : string) (r : SessionRecord)
    (groups : list (string * list SessionRecord)) (k' : string)
    (g' : list SessionRecord) :
  NoDup (map fst groups) ->
  (k', g') ∈ pushGroup k r groups ->
  (k' <> k /\ (k', g') ∈ groups)
  \/ (k' = k /\ exists g, (k, g) ∈ groups /\ g' = g ++ [r])
  \/ (k' = k /\ (k ∉ map fst groups) /\ g' = [r]).
Proof.
  induction groups as [|[k0 g0] rest IH]; cbn [pushGroup map fst]; intros Hnd.
  - intros Hin. apply list_elem_of_singleton in Hin. injection Hin as -> ->.
    right. right. repeat split. apply not_elem_of_nil.
  - apply NoDup_cons in Hnd. destruct Hnd as [Hk0 Hnd].
    destruct (String.eqb_spec k0 k) as [-> | Hne]; intros Hin;
      apply elem_of_cons in Hin; destruct Hin as [Heq | Hin].
    + injection Heq as -> ->. right. left. split; [reflexivity|].
      exists g0. split; [apply list_elem_of_here | reflexivity].
    + left. split; [|right; exact Hin].
      intros ->. apply Hk0. eapply entry_key_in, Hin.
    + injection Heq as -> ->. left. split; [congruence | apply list_elem_of_here].
    + destruct (IH Hnd Hin)
        as [[Hk Hold] | [(-> & g & Hg & ->) | (-> & Hnin & ->)]].
      * left. split; [assumption | apply list_elem_of_further, Hold].
      * right. left. split; [reflexivity|].
        exists g. split; [apply list_elem_of_further, Hg | reflexivity].
      * right. right. repeat split.
        intros Hk. apply elem_of_cons in Hk.
        destruct Hk; [congruence | contradiction].
Qed.

Lemma pushGroup_members (k : string) (r : SessionRecord)
    (groups : list (string * list SessionRecord)) :
  concat (map snd (pushGroup k r groups)) ≡ₚ r :: concat (map snd groups).
Proof.
  induction groups as [|[k' g] rest IH]; cbn [pushGroup]; [reflexivity|].
  destruct (String.eqb k' k); cbn [map snd concat].
  - rewrite <- app_assoc. cbn [app].
    rewrite <- Permutation_middle. reflexivity.
  - rewrite IH. rewrite <- Permutation_middle. reflexivity.
Qed.

(** The groups built from an archive, as a predicate on both. *)
Lemma groups_characterised (l : list SessionRecord) :
  let groups :=
    fold_left (fun groups session =>
                 pushGroup (dateKey (date session)) session groups) l [] in
  NoDup (map fst groups)
  /\ (forall k g, (k, g) ∈ groups ->
                  g <> [] /\ g = filter (fun r => dateKey (date r) = k) l)
  /\ (forall r, r ∈ l -> dateKey (date r) ∈ map fst groups)
  /\ concat (map snd groups) ≡ₚ l.
Proof.
  induction l as [|r l IH] using rev_ind; cbn zeta.
  - cbn. split; [constructor|]. split; [|split; [|reflexivity]].
    + intros k g Hin. apply elem_of_nil in Hin. contradiction.
    + intros r Hin. apply elem_of_nil in Hin. contradiction.
  - rewrite fold_left_app. cbn [fold_left].
    cbn zeta in IH. destruct IH as (Hnd & Hgrp & Hcov & Hperm).
    set (groups := fold_left _ l []) in *.
    set (k := dateKey (date r)).
    split; [|split; [|split]].
    + destruct (pushGroup_keys k r groups) as [[_ ->] | [Hnin ->]];
        [exact Hnd|].
      apply NoDup_app. split; [exact Hnd|]. split; [|apply NoDup_singleton].
      intros x Hx Hx'. apply list_elem_of_singleton in Hx'. congruence.
    + intros k' g' Hin.
      destruct (pushGroup_entries k r groups k' g' Hnd Hin)
        as [[Hk Hold] | [(-> & g & Hg & ->) | (-> & Hnin & ->)]].
      * destruct (Hgrp k' g' Hold) as [Hne Hg]. split; [exact Hne|].
        rewrite filter_app, <- Hg.
        rewrite filter_cons_False by (fold k; congruence).
        rewrite filter_nil, app_nil_r. reflexivity.
      * destruct (Hgrp k g Hg) as [_ Hfil]. split; [destruct g; discriminate|].
        rewrite filter_app, <- Hfil.
        rewrite filter_cons_True by reflexivity. reflexivity.
      * split; [discriminate|].
        rewrite filter_app, filter_cons_True by reflexivity.
        rewrite filter_nil.
        assert (Hnone : filter (fun r0 => dateKey (date r0) = k) l = []).
        { destruct (filter _ l) as [|x xs] eqn:E; [reflexivity|].
          assert (Hx : x ∈ filter (fun r0 => dateKey (date r0) = k) l)
            by (rewrite E; apply list_elem_of_here).
          apply list_elem_of_filter in Hx. destruct Hx as [Hkx Hxl].
          exfalso. apply Hnin. rewrite <- Hkx. apply Hcov, Hxl. }
        rewrite Hnone. reflexivity.
    + intros r' Hin. apply elem_of_app in Hin.
      destruct (pushGroup_keys k r groups) as [[Hk ->] | [Hnin ->]].
      * destruct Hin as [Hin | Hin]; [apply Hcov, Hin|].
        apply list_elem_of_singleton in Hin. subst r'. exact Hk.
      * apply elem_of_app. destruct Hin as [Hin | Hin].
        -- left. apply Hcov, Hin.
        -- right. apply list_elem_of_singleton in Hin. subst r'.
           apply list_elem_of_here.
    + rewrite pushGroup_members, Hperm.
      apply Permutation_cons_append.
Qed.

(** X9: the journal's groups partition the archive by date key.  The keys
    of the groups are pairwise distinct; every group is non-empty and holds
    exactly the sessions of its key, in the order of the archive (newest
    first); every session's key has a group; and the groups together hold
    the archive's sessions, each as often as the archive does. *)
Theorem groupedSessions_partition (s : AppState) :
  NoDup (map fst (groupedSessions dateKey s))
  /\ (forall k g,
         (k, g) ∈ groupedSessions dateKey s ->
         g <> []
         /\ g = filter (fun r => dateKey (date r) = k) (allSessions s))
  /\ (forall r, r ∈ allSessions s ->
                dateKey (date r) ∈ map fst (groupedSessions dateKey s))
  /\ concat (map snd (groupedSessions dateKey s)) ≡ₚ allSessions s.
Proof. apply groups_characterised. Qed.

Lemma fold_pushGroup_head (l : list SessionRecord) (k0 : string)
    (g0 : list SessionRecord) (rest : list (string * list SessionRecord)) :
  exists g' rest',
    fold_left (fun groups session =>
                 pushGroup (dateKey (date session)) session groups)
      l ((k0, g0) :: rest)
    = (k0, g0 ++ g') :: rest'.
Proof.
  revert g0 rest. induction l as [|r l IH]; intros g0 rest.
  - exists [], rest. rewrite app_nil_r. reflexivity.
  - cbn [fold_left pushGroup]. destruct (String.eqb k0 _).
    + destruct (IH (g0 ++ [r]) rest) as (g' & rest' & ->).
      exists (r :: g'), rest'. rewrite <- app_assoc. reflexivity.
    + apply IH.
Qed.

(** X10: the journal opens with the newest session.  When the archive is
    not empty, the first group is the one of the date key of the archive's
    first session, and that session is the first of the group. *)
Theorem groupedSessions_newest_first (s : AppState) (r : SessionRecord)
    (older : list SessionRecord) :
  allSessions s = r :: older ->
  exists g rest,
    groupedSessions dateKey s = (dateKey (date r), r :: g) :: rest.
Proof.
  intros Hs. unfold groupedSessions. rewrite Hs. cbn [fold_left pushGroup].
  destruct (fold_pushGroup_head older (dateKey (date r)) [r] [])
    as (g' & rest' & ->).
  exists g', rest'. reflexivity.
Qed.

End Journal.

(** ** The duration formatter *)

Section Formatter.

Lemma append_inv_head (s x y : string) :
  String.append s x = String.append s y -> x = y.
Proof.
  induction s as [|c s IH]; [trivial|].
  change (String.append (String c s) ?r) with (String c (String.append s r)).
  intros H. injection H as H. apply IH, H.
Qed.

(** The three fields depend on the whole seconds only. *)
Lemma formatDuration_fields (ms : Z) :
  0 <= ms ->
  ms / 3600000 = ms / 1000 / 3600
  /\ Z.rem ms 3600000 / 60000 = (ms / 1000) mod 3600 / 60
  /\ Z.rem ms 60000 / 1000 = (ms / 1000) mod 60.
Proof.
  intros Hms. rewrite !Z.rem_mod_nonneg by lia.
  repeat split; Z.to_euclidean_division_equations; lia.
Qed.

(** A field below 60, padded, is two characters that read back as the
    field. *)
Lemma padStart2_two_digits (x : Z) :
  0 <= x < 60 ->
  exists c1 c2 : ascii,
    padStart2 (toString x) = String c1 (String c2 "")
    /\ forall rest, notDigitHead rest ->
                    parseInt (String c1 (String c2 rest)) = Num x.
Proof.
  intros Hx.
  assert (Hn : exists n : nat, x = Z.of_nat n /\ (n < 60)%nat)
    by (exists (Z.to_nat x); lia).
  destruct Hn as (n & -> & Hn). clear Hx.
  do 60 (destruct n as [|n];
         [ eexists; eexists; split; [vm_compute; reflexivity|];
           intros rest Hrest; unfold parseInt; cbn [skipWhiteSpace];
           match goal with
           | |- context [isWhiteSpace ?c] =>
               let v := eval vm_compute in (isWhiteSpace c) in
               change (isWhiteSpace c) with v
           end;
           cbv beta iota zeta; cbn [readDigits];
           repeat match goal with
                  | |- context [digitOf ?c] =>
                      let v := eval vm_compute in (digitOf c) in
                      change (digitOf c) with v;
                      cbv beta iota
                  end;
           cbn [default from_option id];
           rewrite readDigits_stop by assumption;
           reflexivity
         | ]).
  lia.
Qed.

(** X11: the display shows the whole seconds and nothing else: two
    non-negative durations are displayed alike exactly when they have the
    same number of whole seconds. *)
Theorem formatDuration_whole_seconds (a b : Z) :
  0 <= a -> 0 <= b ->
  (formatDuration a = formatDuration b <-> a / 1000 = b / 1000).
Proof.
  intros Ha Hb.
  destruct (formatDuration_fields a Ha) as (Hha & Hma & Hsa).
  destruct (formatDuration_fields b Hb) as (Hhb & Hmb & Hsb).
  unfold formatDuration. cbv zeta. rewrite Hha, Hma, Hsa, Hhb, Hmb, Hsb.
  clear Hha Hma Hsa Hhb Hmb Hsb.
  split; [|intros ->; reflexivity].
  assert (Hta : 0 <= a / 1000) by (apply Z.div_pos; lia).
  assert (Htb : 0 <= b / 1000) by (apply Z.div_pos; lia).
  remember (a / 1000) as ta eqn:Eta. remember (b / 1000) as tb eqn:Etb.
  clear Eta Etb Ha Hb a b.
  assert (Hfield : forall t, 0 <= t ->
                     0 <= t mod 3600 / 60 < 60 /\ 0 <= t mod 60 < 60)
    by (intros; Z.to_euclidean_division_equations; lia).
  destruct (Hfield ta Hta) as [Bma Bsa]. destruct (Hfield tb Htb) as [Bmb Bsb].
  destruct (padStart2_two_digits _ Bma) as (m1 & m2 & Hm & Hmp).
  destruct (padStart2_two_digits _ Bsa) as (s1 & s2 & Hs & Hsp).
  destruct (padStart2_two_digits _ Bmb) as (n1 & n2 & Hn & Hnp).
  destruct (padStart2_two_digits _ Bsb) as (u1 & u2 & Hu & Hup).
  rewrite Hm, Hs, Hn, Hu.
  change (String.append (String ?c ?s) ?r) with (String c (String.append s r)).
  change (String.append "" ?r) with r.
  assert (Hcolon : forall r, notDigitHead (String ":" r)) by (intros; reflexivity).
  pose proof (Hmp (String ":" (String s1 (String s2 ""))) (Hcolon _)) as H1.
  pose proof (Hnp (String ":" (String u1 (String u2 ""))) (Hcolon _)) as H2.
  pose proof (Hsp "" I) as H3. pose proof (Hup "" I) as H4.
  clear Hm Hs Hn Hu Hmp Hsp Hnp Hup.
  destruct (0 <? ta / 3600) eqn:Eha; destruct (0 <? tb / 3600) eqn:Ehb;
    intros Heq;
    pose proof (f_equal parseInt Heq) as Hp;
    rewrite !parseInt_toString_tail in Hp by apply Hcolon;
    injection Hp as Hp;
    rewrite Hp in Heq; apply append_inv_head in Heq;
    inversion Heq; subst; clear Heq.
  - (* hours on both sides *)
    rewrite H1 in H2. rewrite H3 in H4.
    injection H2 as H2. injection H4 as H4.
    Z.to_euclidean_division_equations; lia.
  - (* minutes and seconds only *)
    rewrite H3 in H4. injection H4 as H4.
    apply Z.ltb_ge in Eha, Ehb.
    Z.to_euclidean_division_equations; lia.
Qed.

End Formatter.

(** ** Runs on a clock that does not go backwards *)

Section MonotoneClock.

Context `{host : Host}.

Lemma finalIntervals_durations (now : Z) (s : AppState) :
  0 <= currentInterval s ->
  Forall (fun i => 0 <= duration i) (intervals s) ->
  Forall (fun i => 0 <= duration i) (finalIntervals now s)
  /\ sumZ (map duration (finalIntervals now s))
     <= sumZ (map duration (intervals s)) + currentInterval s.
Proof.
  intros Hc Hpos. unfold finalIntervals.
  destruct (500 <? currentInterval s).
  - split.
    + apply Forall_app. split; [exact Hpos|]. repeat constructor. exact Hc.
    + rewrite map_app, sumZ_app. unfold sumZ at 2. cbn. lia.
  - split; [exact Hpos | lia].
Qed.

Lemma startSession_idle (now : Z) (s : AppState) :
  isActive s = false ->
  startSession now s =
    mkState true false 0 [] (Some now) (personalBest s) (allSessions s) now
            (localStorage s).
Proof. intros Ha. destruct s. unfold_app. subst. reflexivity. Qed.

(** The invariant of an admissible run, one event at a time. *)
Lemma admissible_step (c : Z) (s : AppState) (e : event) :
  0 < c ->
  (isActive s = true ->
   exists t0,
     sessionStartTime s = Some t0 /\ 0 < t0 /\ t0 <= lastUpdateRef s
     /\ lastUpdateRef s <= c /\ 0 <= currentInterval s
     /\ Forall (fun i => 0 <= duration i) (intervals s)
     /\ sumZ (map duration (intervals s)) + currentInterval s
        <= lastUpdateRef s - t0) ->
  Forall (fun r => Forall (fun i => 0 <= duration i) (sr_intervals r)
                   /\ sumZ (map duration (sr_intervals r)) <= totalDuration r)
    (allSessions s) ->
  enabled s e = true ->
  let c' := default c (eventTime e) in
  c <= c' ->
  (isActive (step s e) = true ->
   exists t0,
     sessionStartTime (step s e) = Some t0 /\ 0 < t0
     /\ t0 <= lastUpdateRef (step s e)
     /\ lastUpdateRef (step s e) <= c' /\ 0 <= currentInterval (step s e)
     /\ Forall (fun i => 0 <= duration i) (intervals (step s e))
     /\ sumZ (map duration (intervals (step s e))) + currentInterval (step s e)
        <= lastUpdateRef (step s e) - t0)
  /\ Forall (fun r => Forall (fun i => 0 <= duration i) (sr_intervals r)
                      /\ sumZ (map duration (sr_intervals r)) <= totalDuration r)
       (allSessions (step s e)).
Proof.
  intros Hc Hlive Harch Hen c' Hcc'.
  destruct e as [now | now | now | now | now | sid];
    cbn [step enabled eventTime default from_option id] in *; subst c'.
  - (* startSession *)
    apply negb_true_iff in Hen. rewrite startSession_idle by assumption.
    cbn [isActive sessionStartTime lastUpdateRef currentInterval intervals
         allSessions]. split; [|exact Harch].
    intros _. exists now. change (sumZ (map duration [])) with 0.
    repeat split; try lia. constructor.
  - (* tick *)
    apply andb_true_iff in Hen. destruct Hen as [Ha Hp].
    rewrite tick_running by (unfold running; rewrite Ha, Hp; reflexivity).
    destruct (Hlive Ha) as (t0 & Hst & Ht0 & Hlu & Hluc & Hci & Hpos & Hsum).
    cbn [isActive sessionStartTime lastUpdateRef currentInterval intervals
         allSessions setLastUpdateRef setCurrentInterval].
    split; [|exact Harch].
    intros _. exists t0. repeat split; try assumption; lia.
  - (* togglePause *)
    destruct (Hlive Hen) as (t0 & Hst & Ht0 & Hlu & Hluc & Hci & Hpos & Hsum).
    destruct (isPaused s) eqn:Hp.
    + rewrite togglePause_resumes by assumption.
      cbn [isActive sessionStartTime lastUpdateRef currentInterval intervals
           allSessions setLastUpdateRef setIsPaused].
      split; [|exact Harch].
      intros _. exists t0. repeat split; try assumption; lia.
    + rewrite togglePause_pauses by assumption.
      cbn [isActive sessionStartTime lastUpdateRef currentInterval intervals
           allSessions setIsPaused].
      split; [|exact Harch].
      intros _. exists t0. repeat split; try assumption; lia.
  - (* recordThought *)
    apply andb_true_iff in Hen. destruct Hen as [Ha Hp].
    apply negb_true_iff in Hp.
    destruct (Hlive Ha) as (t0 & Hst & Ht0 & Hlu & Hluc & Hci & Hpos & Hsum).
    destruct (recordThought_flags now s) as (Ha' & Hp' & Hlu' & Hall & Hst').
    rewrite Hall, Hst', Hlu'.
    rewrite recordThought_intervals, recordThought_currentInterval
      by assumption.
    split; [|exact Harch].
    intros _. exists t0. repeat split; try assumption; try lia.
    + apply Forall_app. split; [exact Hpos|]. repeat constructor. exact Hci.
    + rewrite map_app, sumZ_app. unfold sumZ at 2. cbn. lia.
  - (* endSession *)
    destruct (Hlive Hen) as (t0 & Hst & Ht0 & Hlu & Hluc & Hci & Hpos & Hsum).
    destruct (endSession_resets now s) as (Ha' & _).
    split; [rewrite Ha'; discriminate|].
    rewrite endSession_allSessions.
    destruct (0 <? length (finalIntervals now s))%nat; [|exact Harch].
    constructor; [|exact Harch].
    cbn [sr_intervals totalDuration sessionStats].
    destruct (finalIntervals_durations now s Hci Hpos) as [Hfpos Hfsum].
    split; [exact Hfpos|].
    unfold totalSessionDuration. rewrite Hst. cbn [truthy].
    assert (Hne : (t0 =? 0) = false) by (apply Z.eqb_neq; lia).
    rewrite Hne. cbn [negb]. lia.
  - (* deleteSession *)
    split; [exact Hlive|].
    rewrite deleteSession_allSessions. apply Forall_filter_keep, Harch.
Qed.

(** X12: on a clock that does not go backwards nothing is negative and no
    session is longer than it lasted.  Take a state with no session active
    whose archived sessions have non-negative durations that add up to at
    most the session's total duration (a fresh installation is one), and a
    run the presentation layer can produce, handled at positive clock
    readings that never decrease.  Then the archive of the state reached is
    of the same kind, and the elapsed time and the durations of the closed
    intervals are non-negative. *)
Theorem admissible_run_durations (tr : list event) (c : Z) (s : AppState) :
  0 < c ->
  isActive s = false ->
  Forall (fun r => Forall (fun i => 0 <= duration i) (sr_intervals r)
                   /\ sumZ (map duration (sr_intervals r)) <= totalDuration r)
    (allSessions s) ->
  admissible c s tr ->
  Forall (fun r => Forall (fun i => 0 <= duration i) (sr_intervals r)
                   /\ sumZ (map duration (sr_intervals r)) <= totalDuration r)
    (allSessions (run tr s))
  /\ (isActive (run tr s) = true ->
      0 <= currentInterval (run tr s)
      /\ Forall (fun i => 0 <= duration i) (intervals (run tr s))).
Proof.
  intros Hc Hidle Harch Hadm.
  assert (Hlive : isActive s = true ->
                  exists t0,
                    sessionStartTime s = Some t0 /\ 0 < t0
                    /\ t0 <= lastUpdateRef s
                    /\ lastUpdateRef s <= c /\ 0 <= currentInterval s
                    /\ Forall (fun i => 0 <= duration i) (intervals s)
                    /\ sumZ (map duration (intervals s)) + currentInterval s
                       <= lastUpdateRef s - t0) by congruence.
  clear Hidle. revert c s Hc Harch Hadm Hlive.
  induction tr as [|e tr IH]; intros c s Hc Harch Hadm Hlive.
  - split; [exact Harch|]. intros Ha.
    destruct (Hlive Ha) as (t0 & _ & _ & _ & _ & Hci & Hpos & _).
    split; assumption.
  - rewrite run_cons. cbn [admissible] in Hadm. destruct Hadm as [Hen Hadm].
    assert (Hclock : c <= default c (eventTime e)
                     /\ admissible (default c (eventTime e)) (step s e) tr).
    { destruct (eventTime e) as [now|]; cbn [default from_option id];
        [exact Hadm | split; [lia | exact Hadm]]. }
    destruct Hclock as [Hle Hadm'].
    destruct (admissible_step c s e Hc Hlive Harch Hen Hle) as [Hlive' Harch'].
    apply (IH (default c (eventTime e))); try assumption. lia.
Qed.

End MonotoneClock.

(** ** The statistics of a finalized session *)

Section SessionStatistics.

Context `{host : Host}.










End SessionStatistics.

(** ** The variants without pause *)

Section Variants.

Context `{host : Host}.

Lemma tickDeltas_app (prev : Z) (l1 l2 : list Z) :
  tickDeltas prev (l1 ++ l2)
  = tickDeltas prev l1 ++ tickDeltas (List.last l1 prev) l2.
Proof.
  revert prev. induction l1 as [|t l1 IH]; intros prev; [reflexivity|].
  cbn [app tickDeltas]. rewrite IH, last_cons. reflexivity.
Qed.

Lemma MindGapV3_run_cons (e : MindGapV3.event) (tr : list MindGapV3.event)
    (s : MindGapV3.State) :
  MindGapV3.run (e :: tr) s = MindGapV3.run tr (MindGapV3.step s e).
Proof. reflexivity. Qed.

Lemma MindGapV3_run_app (tr1 tr2 : list MindGapV3.event) (s : MindGapV3.State) :
  MindGapV3.run (tr1 ++ tr2) s = MindGapV3.run tr2 (MindGapV3.run tr1 s).
Proof. apply fold_left_app. Qed.

(** What the events of a session do to an active session: the thoughts
    close intervals whose durations are the differences of their clock
    readings, and the ticks touch the displayed time only. *)
Lemma MindGapV3_run_duringSession (tr : list MindGapV3.event)
    (s : MindGapV3.State) :
  Forall (fun e => MindGapV3.duringSession e = true) tr ->
  MindGapV3.isActive s = true ->
  MindGapV3.isActive (MindGapV3.run tr s) = true
  /\ map duration (MindGapV3.intervals (MindGapV3.run tr s))
     = map duration (MindGapV3.intervals s)
       ++ tickDeltas (MindGapV3.lastThoughtTimestamp s)
                     (MindGapV3.thoughtTimes tr)
  /\ MindGapV3.lastThoughtTimestamp (MindGapV3.run tr s)
     = List.last (MindGapV3.thoughtTimes tr) (MindGapV3.lastThoughtTimestamp s)
  /\ MindGapV3.sessionStartTime (MindGapV3.run tr s)
     = MindGapV3.sessionStartTime s
  /\ MindGapV3.allSessions (MindGapV3.run tr s) = MindGapV3.allSessions s.
Proof.
  intros Htr. revert s. induction Htr as [|e tr He Htr IH]; intros s Ha.
  - cbn. rewrite app_nil_r. repeat split. exact Ha.
  - rewrite MindGapV3_run_cons.
    destruct e as [now | now | now | now | id]; try discriminate;
      cbn [MindGapV3.step MindGapV3.thoughtTimes].
    + unfold MindGapV3.tick. rewrite Ha.
      match goal with
      | |- context [MindGapV3.run tr ?s'] =>
          destruct (IH s' eq_refl) as (H1 & H2 & H3 & H4 & H5)
      end.
      cbn [MindGapV3.intervals MindGapV3.lastThoughtTimestamp
           MindGapV3.sessionStartTime MindGapV3.allSessions] in H2, H3, H4, H5.
      repeat split; assumption.
    + unfold MindGapV3.recordThought. rewrite Ha. cbn [negb]. cbv zeta.
      match goal with
      | |- context [MindGapV3.run tr ?s'] =>
          destruct (IH s' eq_refl) as (H1 & H2 & H3 & H4 & H5)
      end.
      rewrite H1, H2, H3, H4, H5.
      cbn [MindGapV3.intervals MindGapV3.lastThoughtTimestamp
           MindGapV3.sessionStartTime MindGapV3.allSessions tickDeltas].
      rewrite map_app, <- app_assoc, last_cons. repeat split.
Qed.

(** X13: in the variant without pause, a session's recorded durations are
    the differences between the consecutive clock readings of the start,
    the thoughts and, when the final gap exceeds 500 ms, the end, whatever
    the timer does in between.  So with a non-zero start reading they add up
    to the session's total duration when the final gap is folded in, and to
    the total duration less the final gap when it is dropped; a session
    without a thought and with a final gap of at most 500 ms leaves the
    archive as it was. *)
Theorem MindGapV3_durations_are_differences
    (s : MindGapV3.State) (t0 now : Z) (inner : list MindGapV3.event) :
  Forall (fun e => MindGapV3.duringSession e = true) inner ->
  let s' := MindGapV3.run
              (MindGapV3.StartSession t0 :: inner ++ [MindGapV3.EndSession now])
              s in
  let thoughts := MindGapV3.thoughtTimes inner in
  let gap := now - List.last thoughts t0 in
  (500 < gap ->
   exists r : SessionRecord,
     MindGapV3.allSessions s' = r :: MindGapV3.allSessions s
     /\ map duration (sr_intervals r) = tickDeltas t0 (thoughts ++ [now])
     /\ (t0 <> 0 -> sumZ (map duration (sr_intervals r)) = totalDuration r))
  /\ (gap <= 500 -> thoughts <> [] ->
      exists r : SessionRecord,
        MindGapV3.allSessions s' = r :: MindGapV3.allSessions s
        /\ map duration (sr_intervals r) = tickDeltas t0 thoughts
        /\ (t0 <> 0 ->
            sumZ (map duration (sr_intervals r)) + gap = totalDuration r))
  /\ (gap <= 500 -> thoughts = [] ->
      MindGapV3.allSessions s' = MindGapV3.allSessions s).
Proof.
  intros Hinner s' thoughts gap.
  destruct (MindGapV3_run_duringSession inner (MindGapV3.startSession t0 s)
              Hinner eq_refl) as (Ha & Hd & Hl & Hst & Hall).
  cbn [MindGapV3.startSession MindGapV3.intervals MindGapV3.lastThoughtTimestamp
       MindGapV3.sessionStartTime MindGapV3.allSessions map app] in Hd, Hl, Hst, Hall.
  fold thoughts in Hd, Hl.
  subst s'. rewrite MindGapV3_run_cons, MindGapV3_run_app.
  cbn [MindGapV3.step MindGapV3.run fold_left].
  set (s1 := fold_left MindGapV3.step inner (MindGapV3.startSession t0 s)) in *.
  change (MindGapV3.run inner (MindGapV3.startSession t0 s)) with s1 in *.
  assert (Htotal : t0 <> 0 -> MindGapV3.totalSessionDuration now s1 = now - t0).
  { intros Ht0. unfold MindGapV3.totalSessionDuration. rewrite Hst.
    cbn [truthy]. apply Z.eqb_neq in Ht0. rewrite Ht0. reflexivity. }
  assert (Hfinal : MindGapV3.finalIntervals now s1
                   = if 500 <? gap
                     then MindGapV3.intervals s1 ++
                            [mkInterval
                               (Z.of_nat (length (MindGapV3.intervals s1)) + 1)
                               gap now]
                     else MindGapV3.intervals s1).
  { unfold MindGapV3.finalIntervals. cbv zeta. rewrite Hl. reflexivity. }
  assert (Hsum : sumZ (tickDeltas t0 thoughts) = List.last thoughts t0 - t0)
    by apply sumZ_tickDeltas.
  unfold MindGapV3.endSession, MindGapV3.sessionStats. cbv zeta.
  rewrite !Hfinal. clear Hfinal. split; [|split].
  - intros Hgap. apply Z.ltb_lt in Hgap. rewrite !Hgap.
    rewrite length_app. cbn [length]. rewrite Nat.add_comm.
    cbn [Nat.add Nat.ltb Nat.leb].
    eexists. split; [cbn [MindGapV3.allSessions]; rewrite Hall; reflexivity|].
    cbn [sr_intervals totalDuration].
    rewrite map_app, Hd. cbn [map duration].
    rewrite tickDeltas_app. cbn [tickDeltas]. split; [reflexivity|].
    intros Ht0. rewrite (Htotal Ht0), sumZ_app, Hsum.
    unfold sumZ at 1. cbn [foldr]. subst gap. lia.
  - intros Hgap Hne. apply Z.ltb_ge in Hgap. rewrite !Hgap.
    assert (Hlen : (0 <? length (MindGapV3.intervals s1))%nat = true).
    { rewrite <- (length_map duration), Hd.
      destruct thoughts; [congruence | reflexivity]. }
    rewrite Hlen.
    eexists. split; [cbn [MindGapV3.allSessions]; rewrite Hall; reflexivity|].
    cbn [sr_intervals totalDuration].
    rewrite Hd. split; [reflexivity|].
    intros Ht0. rewrite (Htotal Ht0), Hsum. subst gap. lia.
  - intros Hgap Hnil. apply Z.ltb_ge in Hgap. rewrite !Hgap.
    assert (Hlen : (0 <? length (MindGapV3.intervals s1))%nat = false).
    { rewrite <- (length_map duration), Hd, Hnil. reflexivity. }
    rewrite Hlen. cbn [MindGapV3.allSessions]. exact Hall.
Qed.

(** X14: in the first variant the end of a session counts for the personal
    best.  When the final interval is longer than 1000 ms it is recorded
    like a thought, after the intervals closed so far, and the personal
    best b becomes max(b, final interval), written through when raised;
    when it is not, ending changes nothing but the active flag. *)
Theorem MindGap_endSession_personalBest (now b : Z) (s : MindGap.State) :
  MindGap.personalBest s = Num b ->
  let gap := now - MindGap.lastThoughtTimestamp s in
  (1000 < gap ->
   MindGap.personalBest (MindGap.endSession now s) = Num (Z.max b gap)
   /\ MindGap.intervals (MindGap.endSession now s)
      = MindGap.intervals s
        ++ [mkInterval (Z.of_nat (length (MindGap.intervals s)) + 1) gap now]
   /\ (b < gap ->
       MindGap.localStorage (MindGap.endSession now s) !! MindGap.STORAGE_KEY_PB
       = Some (toString gap)))
  /\ (gap <= 1000 ->
      MindGap.endSession now s
      = MindGap.mkState false (MindGap.currentInterval s) (MindGap.intervals s)
          (MindGap.sessionStartTime s) (MindGap.personalBest s)
          (MindGap.lastThoughtTimestamp s) (MindGap.localStorage s)).
Proof.
  intros Hb gap. unfold MindGap.endSession. cbv zeta. fold gap. split.
  - intros Hgap. pose proof Hgap as Hlt. apply Z.ltb_lt in Hlt. rewrite Hlt.
    unfold MindGap.handleThought. rewrite andb_false_r. cbv zeta. fold gap.
    rewrite Hb. cbn [gt MindGap.personalBest MindGap.intervals
                     MindGap.localStorage].
    split; [|split; [reflexivity|]].
    + destruct (b <? gap) eqn:E;
        [apply Z.ltb_lt in E; rewrite Z.max_r by lia
        |apply Z.ltb_ge in E; rewrite Z.max_l by lia]; reflexivity.
    + intros Hbg. apply Z.ltb_lt in Hbg. rewrite Hbg. apply lookup_insert_eq.
  - intros Hgap. apply Z.ltb_ge in Hgap. rewrite Hgap. reflexivity.
Qed.

End Variants.

(** ** Where the tick deltas go *)

Section TickAccounting.

Context `{host : Host}.

Lemma run_duringSession (tr : list event) (s : AppState) :
  Forall (fun e => duringSession e = true) tr ->
  isActive s = true -> isPaused s = false ->
  sumZ (map duration (intervals (run tr s))) + currentInterval (run tr s)
  = sumZ (map duration (intervals s)) + currentInterval s
    + (List.last (tickTimes tr) (lastUpdateRef s) - lastUpdateRef s)
  /\ lastUpdateRef (run tr s) = List.last (tickTimes tr) (lastUpdateRef s).
Proof.
  intros Htr. revert s.
  induction Htr as [|e tr He Htr IH]; intros s Ha Hp.
  - cbn [run fold_left tickTimes List.last]. split; lia.
  - rewrite run_cons.
    destruct e as [now | now | now | now | now | sid]; try discriminate;
      cbn [step tickTimes].
    + rewrite tick_running by (unfold running; rewrite Ha, Hp; reflexivity).
      match goal with
      | |- context [run tr ?s'] => destruct (IH s' Ha Hp) as (H1 & H2)
      end.
      cbn [intervals currentInterval lastUpdateRef setLastUpdateRef
           setCurrentInterval] in H1, H2.
      rewrite H1, H2, last_cons. split; lia.
    + destruct (recordThought_flags now s) as (Ha' & Hp' & Hlu & _).
      destruct (IH (recordThought now s)) as (H1 & H2); [congruence..|].
      rewrite H1, H2, Hlu.
      rewrite recordThought_intervals, recordThought_currentInterval
        by assumption.
      rewrite map_app, sumZ_app. unfold sumZ at 2. cbn [map duration foldr].
      split; lia.
Qed.

(** X15: in a running session every tick delta is counted in exactly one
    interval.  Through any sequence of ticks and thoughts, the durations of
    the closed intervals and the elapsed time of the open one together grow
    by the deltas of the ticks, that is by the time from the reference
    instant to the last tick: what a thought comes too early for goes to
    the next interval, and the clock reading of the thought itself plays no
    part. *)
Theorem tick_deltas_counted_once (tr : list event) (s : AppState) :
  Forall (fun e => duringSession e = true) tr ->
  isActive s = true -> isPaused s = false ->
  sumZ (map duration (intervals (run tr s))) + currentInterval (run tr s)
  = sumZ (map duration (intervals s)) + currentInterval s
    + sumZ (tickDeltas (lastUpdateRef s) (tickTimes tr))
  /\ sumZ (tickDeltas (lastUpdateRef s) (tickTimes tr))
     = List.last (tickTimes tr) (lastUpdateRef s) - lastUpdateRef s
  /\ lastUpdateRef (run tr s) = List.last (tickTimes tr) (lastUpdateRef s).
Proof.
  intros Htr Ha Hp.
  destruct (run_duringSession tr s Htr Ha Hp) as [H1 H2].
  rewrite sumZ_tickDeltas. repeat split; assumption.
Qed.

End TickAccounting.

(** ** The personal best against the intervals, and the order of the archive *)

Section Orders.

Context `{host : Host}.

Lemma Forall_removelast {A : Type} (P : A -> Prop) (l : list A) :
  Forall P l -> Forall P (removelast l).
Proof.
  induction 1 as [|x l Hx Hl IH]; [constructor|].
  cbn [removelast]. destruct l; [constructor|].
  constructor; assumption.
Qed.

Lemma finalIntervals_removelast (now b : Z) (s : AppState) :
  Forall (fun i => duration i <= b) (intervals s) ->
  Forall (fun i => duration i <= b) (removelast (finalIntervals now s)).
Proof.
  intros H. unfold finalIntervals.
  destruct (500 <? currentInterval s).
  - rewrite removelast_last. exact H.
  - apply Forall_removelast, H.
Qed.

Lemma thoughts_bounded_step (e : event) (s : AppState) (b : Z) :
  personalBest s = Num b ->
  Forall (fun i => duration i <= b) (intervals s) ->
  Forall (fun r => Forall (fun i => duration i <= b)
                     (removelast (sr_intervals r))) (allSessions s) ->
  exists b' : Z,
    personalBest (step s e) = Num b' /\ b <= b'
    /\ Forall (fun i => duration i <= b') (intervals (step s e))
    /\ Forall (fun r => Forall (fun i => duration i <= b')
                          (removelast (sr_intervals r)))
         (allSessions (step s e)).
Proof.
  intros Hb Hlive Harch.
  assert (Hsame : personalBest (step s e) = personalBest s ->
                  (intervals (step s e) = intervals s
                   \/ intervals (step s e) = []) ->
                  (allSessions (step s e) = allSessions s
                   \/ (exists now, allSessions (step s e)
                                   = sessionStats now s :: allSessions s)
                   \/ (exists sid, allSessions (step s e)
                                   = filter (fun r => sr_id r ≠ sid)
                                       (allSessions s))) ->
                  exists b' : Z,
                    personalBest (step s e) = Num b' /\ b <= b'
                    /\ Forall (fun i => duration i <= b') (intervals (step s e))
                    /\ Forall (fun r => Forall (fun i => duration i <= b')
                                          (removelast (sr_intervals r)))
                         (allSessions (step s e))).
  { intros Hpb Hint Hall. exists b. rewrite Hpb.
    split; [exact Hb|]. split; [lia|]. split.
    - destruct Hint as [-> | ->]; [exact Hlive | constructor].
    - destruct Hall as [-> | [(now & ->) | (sid & ->)]].
      + exact Harch.
      + constructor; [|exact Harch].
        cbn [sr_intervals sessionStats]. apply finalIntervals_removelast, Hlive.
      + apply Forall_filter_keep, Harch. }
  destruct e as [now | now | now | now | now | sid]; cbn [step] in *.
  - apply Hsame; [|right|left]; unfold_app; split_tests; reflexivity.
  - apply Hsame; [|left|left]; unfold_app; split_tests; reflexivity.
  - apply Hsame; [|left|left]; unfold_app; split_tests; reflexivity.
  - clear Hsame.
    destruct (recordThought_flags now s) as (_ & _ & _ & Hall & _).
    rewrite Hall, recordThought_personalBest.
    unfold recordThought, running.
    destruct (isActive s), (isPaused s); cbn [negb orb andb];
      try (exists b; repeat split; [assumption | lia | assumption..]).
    rewrite Hb. cbn [gt]. cbn zeta.
    destruct (b <? currentInterval s) eqn:E.
    + apply Z.ltb_lt in E. exists (currentInterval s).
      split; [reflexivity|]. split; [lia|]. split.
      * cbn [intervals setCurrentInterval localStorage_setItem
             setPersonalBest setIntervals].
        apply Forall_app. split.
        -- eapply Forall_impl; [exact Hlive|]. cbn beta. intros; lia.
        -- repeat constructor. cbn. lia.
      * eapply Forall_impl; [exact Harch|]. cbn beta. intros r Hr.
        eapply Forall_impl; [exact Hr|]. cbn beta. intros; lia.
    + apply Z.ltb_ge in E. exists b.
      split; [reflexivity|]. split; [lia|]. split; [|exact Harch].
      cbn [intervals setCurrentInterval setIntervals].
      apply Forall_app. split; [exact Hlive|]. repeat constructor. cbn. lia.
  - apply Hsame.
    + apply endSession_personalBest.
    + right. apply endSession_resets.
    + rewrite endSession_allSessions.
      destruct (0 <? length (finalIntervals now s))%nat;
        [right; left; exists now; reflexivity | left; reflexivity].
  - apply Hsame; [reflexivity | left; reflexivity |].
    right. right. exists sid. reflexivity.
Qed.

(** X16: no interval closed by a thought exceeds the personal best.  From a
    state whose personal best is a number that bounds the durations of the
    closed intervals and, in every archived session, of all intervals but
    the last (the one [endSession] may have folded in), every sequence of
    events leads to a state of the same kind, with a personal best that is
    not smaller. *)
Theorem thoughts_bounded_by_personalBest
    (tr : list event) (s : AppState) (b : Z) :
  personalBest s = Num b ->
  Forall (fun i => duration i <= b) (intervals s) ->
  Forall (fun r => Forall (fun i => duration i <= b)
                     (removelast (sr_intervals r))) (allSessions s) ->
  exists b' : Z,
    personalBest (run tr s) = Num b' /\ b <= b'
    /\ Forall (fun i => duration i <= b') (intervals (run tr s))
    /\ Forall (fun r => Forall (fun i => duration i <= b')
                          (removelast (sr_intervals r)))
         (allSessions (run tr s)).
Proof.
  revert s b. induction tr as [|e tr IH]; intros s b Hb Hlive Harch.
  - exists b. repeat split; try assumption. lia.
  - rewrite run_cons.
    destruct (thoughts_bounded_step e s b Hb Hlive Harch)
      as (b1 & Hb1 & Hle1 & Hlive1 & Harch1).
    destruct (IH (step s e) b1 Hb1 Hlive1 Harch1)
      as (b2 & Hb2 & Hle2 & Hlive2 & Harch2).
    exists b2. repeat split; try assumption. lia.
Qed.

Lemma StronglySorted_filter_keep {A : Type} (R : A -> A -> Prop)
    (P : A -> Prop) `{!forall x, Decision (P x)} (l : list A) :
  StronglySorted R l -> StronglySorted R (filter P l).
Proof.
  induction 1 as [|x l Hl IH Hx]; [constructor|].
  destruct (decide (P x)).
  - rewrite filter_cons_True by assumption. constructor; [exact IH|].
    apply Forall_filter_keep, Hx.
  - rewrite filter_cons_False by assumption. exact IH.
Qed.

Lemma newest_first_step (c : Z) (s : AppState) (e : event) :
  Forall (fun r => sr_id r <= c) (allSessions s) ->
  StronglySorted (fun a b => sr_id b <= sr_id a) (allSessions s) ->
  c <= default c (eventTime e) ->
  Forall (fun r => sr_id r <= default c (eventTime e)) (allSessions (step s e))
  /\ StronglySorted (fun a b => sr_id b <= sr_id a) (allSessions (step s e)).
Proof.
  intros Hle Hsorted Hc.
  assert (Hle' : Forall (fun r => sr_id r <= default c (eventTime e))
                   (allSessions s)).
  { eapply Forall_impl; [exact Hle|]. cbn beta. intros; lia. }
  destruct (step_allSessions e s) as [-> | [(now & -> & _ & ->) | (sid & ->)]].
  - split; assumption.
  - cbn [eventTime default from_option id] in *. split.
    + constructor; [cbn; lia | exact Hle'].
    + constructor; [exact Hsorted|]. cbn [sr_id sessionStats]. exact Hle'.
  - split; [apply Forall_filter_keep, Hle'|].
    apply StronglySorted_filter_keep, Hsorted.
Qed.

(** X17: the archive is newest first.  On a clock that does not go
    backwards, a run the presentation layer can produce keeps the archive
    ordered by descending session id, the id being the clock reading at
    which the session ended, provided the archive it starts from is so
    ordered and holds no id later than the current reading. *)
Theorem archive_newest_first (tr : list event) (c : Z) (s : AppState) :
  admissible c s tr ->
  Forall (fun r => sr_id r <= c) (allSessions s) ->
  StronglySorted (fun a b => sr_id b <= sr_id a) (allSessions s) ->
  StronglySorted (fun a b => sr_id b <= sr_id a) (allSessions (run tr s)).
Proof.
  revert c s. induction tr as [|e tr IH]; intros c s Hadm Hle Hsorted;
    [exact Hsorted|].
  rewrite run_cons. cbn [admissible] in Hadm. destruct Hadm as [_ Hadm].
  assert (Hclock : c <= default c (eventTime e)
                   /\ admissible (default c (eventTime e)) (step s e) tr).
  { destruct (eventTime e) as [now|]; cbn [default from_option id];
      [exact Hadm | split; [lia | exact Hadm]]. }
  destruct Hclock as [Hc Hadm'].
  destruct (newest_first_step c s e Hle Hsorted Hc) as [Hle' Hsorted'].
  exact (IH _ _ Hadm' Hle' Hsorted').
Qed.

End Orders.

(** ** The further theorems at concrete inputs *)

Section MoreSamples.

#[local] Existing Instance sampleHost.

Lemma personalBest_survives_reload_witness :
  personalBestPersisted initialState
  /\ personalBest (remount (run (scenario 5000) initialState)) = Num 1200.
Proof.
  assert (H0 : personalBestPersisted initialState).
  { exists 0. split; [reflexivity|]. right. split; reflexivity. }
  split; [exact H0|].
  rewrite (proj2 (personalBest_survives_reload (scenario 5000) initialState H0)).
  reflexivity.
Defined.

Lemma archive_written_through_witness :
  allSessions (step (run (scenarioBeforeEnd 5000) initialState) (EndSession 7300))
  <> allSessions (run (scenarioBeforeEnd 5000) initialState)
  /\ archivePersisted
       (step (run (scenarioBeforeEnd 5000) initialState) (EndSession 7300)).
Proof.
  assert (H : allSessions
                (step (run (scenarioBeforeEnd 5000) initialState)
                      (EndSession 7300))
              <> allSessions (run (scenarioBeforeEnd 5000) initialState))
    by (vm_compute; discriminate).
  split; [exact H|].
  exact (proj1 archive_written_through (EndSession 7300)
           (run (scenarioBeforeEnd 5000) initialState) H).
Defined.

Lemma archive_stays_well_formed_witness :
  sequentialIds (intervals initialState)
  /\ Forall wellFormedSession (allSessions initialState)
  /\ Forall wellFormedSession
       (allSessions (run (scenario 5000 ++ scenario 9000) initialState)).
Proof.
  split; [reflexivity|]. split; [constructor|].
  apply (archive_stays_well_formed (scenario 5000 ++ scenario 9000) initialState);
    [reflexivity | constructor].
Defined.

Lemma idle_state_is_clean_witness :
  (isActive initialState = false ->
   intervals initialState = [] /\ currentInterval initialState = 0)
  /\ isActive (run (scenario 5000 ++ [Tick 7400; RecordThought 7450]) initialState)
     = false
  /\ intervals (run (scenario 5000 ++ [Tick 7400; RecordThought 7450]) initialState)
     = [].
Proof.
  split; [intros _; split; reflexivity|]. split; [reflexivity|].
  apply (idle_state_is_clean (scenario 5000 ++ [Tick 7400; RecordThought 7450])
           initialState); [intros _; split; reflexivity | reflexivity].
Defined.

Lemma liveStats_count_intervals_witness :
  Forall wellFormedSession
    [mkSession 7300 "7300" [mkInterval 1 1200 6200; mkInterval 2 700 6900]
       2300 2 1200 950]
  /\ count (liveStats
              (setAllSessions
                 [mkSession 7300 "7300"
                    [mkInterval 1 1200 6200; mkInterval 2 700 6900]
                    2300 2 1200 950]
                 initialState))
     = 2.
Proof.
  assert (H : Forall wellFormedSession
                [mkSession 7300 "7300"
                   [mkInterval 1 1200 6200; mkInterval 2 700 6900]
                   2300 2 1200 950]).
  { constructor; [|constructor].
    split; [discriminate|]. split; [reflexivity|]. split; [reflexivity|].
    split; [|discriminate].
    repeat constructor; discriminate. }
  split; [exact H|].
  rewrite (liveStats_count_intervals
             (setAllSessions
                [mkSession 7300 "7300"
                   [mkInterval 1 1200 6200; mkInterval 2 700 6900]
                   2300 2 1200 950]
                initialState) H).
  reflexivity.
Defined.

Lemma groupedSessions_newest_first_witness :
  exists g rest,
    groupedSessions (fun d => substring 0 10 d)
      (setAllSessions
         [mkSession 3 "2026-01-02T18:00:00.000Z" [mkInterval 1 900 3] 900 1 900 900;
          mkSession 2 "2026-01-01T09:00:00.000Z" [mkInterval 1 800 2] 800 1 800 800;
          mkSession 1 "2026-01-02T07:00:00.000Z" [mkInterval 1 700 1] 700 1 700 700]
         initialState)
    = ("2026-01-02"%string,
       mkSession 3 "2026-01-02T18:00:00.000Z" [mkInterval 1 900 3] 900 1 900 900
         :: g) :: rest.
Proof.
  apply (groupedSessions_newest_first (fun d => substring 0 10 d)
           (setAllSessions
              [mkSession 3 "2026-01-02T18:00:00.000Z" [mkInterval 1 900 3] 900 1 900 900;
               mkSession 2 "2026-01-01T09:00:00.000Z" [mkInterval 1 800 2] 800 1 800 800;
               mkSession 1 "2026-01-02T07:00:00.000Z" [mkInterval 1 700 1] 700 1 700 700]
              initialState)
           (mkSession 3 "2026-01-02T18:00:00.000Z" [mkInterval 1 900 3] 900 1 900 900)
           [mkSession 2 "2026-01-01T09:00:00.000Z" [mkInterval 1 800 2] 800 1 800 800;
            mkSession 1 "2026-01-02T07:00:00.000Z" [mkInterval 1 700 1] 700 1 700 700]).
  reflexivity.
Defined.

Lemma formatDuration_whole_seconds_witness :
  0 <= 3725000 /\ 0 <= 3725999
  /\ (formatDuration 3725000 = formatDuration 3725999
      <-> 3725000 / 1000 = 3725999 / 1000).
Proof.
  split; [discriminate|]. split; [discriminate|].
  apply (formatDuration_whole_seconds 3725000 3725999); discriminate.
Defined.

Lemma admissible_run_durations_witness :
  0 < 1
  /\ isActive initialState = false
  /\ admissible 1 initialState (scenario 5000)
  /\ Forall (fun r => Forall (fun i => 0 <= duration i) (sr_intervals r)
                      /\ sumZ (map duration (sr_intervals r)) <= totalDuration r)
       (allSessions (run (scenario 5000) initialState)).
Proof.
  assert (Hadm : admissible 1 initialState (scenario 5000))
    by (vm_compute; repeat split; discriminate).
  split; [reflexivity|]. split; [reflexivity|]. split; [exact Hadm|].
  apply (admissible_run_durations (scenario 5000) 1 initialState);
    [reflexivity | reflexivity | constructor | exact Hadm].
Defined.

Lemma MindGapV3_durations_are_differences_witness :
  Forall (fun e => MindGapV3.duringSession e = true)
    [MindGapV3.Tick 5100; MindGapV3.RecordThought 6250; MindGapV3.Tick 6300;
     MindGapV3.RecordThought 6900]
  /\ exists r : SessionRecord,
       MindGapV3.allSessions
         (MindGapV3.run
            (MindGapV3.StartSession 5000
               :: [MindGapV3.Tick 5100; MindGapV3.RecordThought 6250;
                   MindGapV3.Tick 6300; MindGapV3.RecordThought 6900]
               ++ [MindGapV3.EndSession 7500])
            MindGapV3.initialState)
       = [r]
       /\ map duration (sr_intervals r) = [1250; 650; 600]
       /\ totalDuration r = 2500.
Proof.
  assert (H : Forall (fun e => MindGapV3.duringSession e = true)
                [MindGapV3.Tick 5100; MindGapV3.RecordThought 6250;
                 MindGapV3.Tick 6300; MindGapV3.RecordThought 6900])
    by (repeat constructor).
  split; [exact H|].
  destruct (proj1 (MindGapV3_durations_are_differences
                     MindGapV3.initialState 5000 7500 _ H))
    as (r & Hr & Hd & Ht); [reflexivity|].
  exists r. split; [exact Hr|]. split; [exact Hd|].
  rewrite <- Ht by discriminate. rewrite Hd. reflexivity.
Defined.

Lemma MindGap_endSession_personalBest_witness :
  MindGap.personalBest (MindGap.mkState true 0 [] (Some 5000) (Num 900) 5000 ∅)
  = Num 900
  /\ 1000 < 7500 - 5000
  /\ MindGap.personalBest
       (MindGap.endSession 7500
          (MindGap.mkState true 0 [] (Some 5000) (Num 900) 5000 ∅))
     = Num 2500.
Proof.
  split; [reflexivity|]. split; [reflexivity|].
  apply (proj1 (MindGap_endSession_personalBest 7500 900
                  (MindGap.mkState true 0 [] (Some 5000) (Num 900) 5000 ∅)
                  eq_refl)).
  reflexivity.
Defined.

Lemma tick_deltas_counted_once_witness :
  Forall (fun e => duringSession e = true)
    [Tick 5100; Tick 5200; RecordThought 5250; Tick 5300; RecordThought 5301]
  /\ isActive (run [StartSession 5000] initialState) = true
  /\ isPaused (run [StartSession 5000] initialState) = false
  /\ sumZ (map duration
             (intervals
                (run [Tick 5100; Tick 5200; RecordThought 5250; Tick 5300;
                      RecordThought 5301]
                     (run [StartSession 5000] initialState))))
     + currentInterval
         (run [Tick 5100; Tick 5200; RecordThought 5250; Tick 5300;
               RecordThought 5301]
              (run [StartSession 5000] initialState))
     = 300.
Proof.
  assert (H : Forall (fun e => duringSession e = true)
                [Tick 5100; Tick 5200; RecordThought 5250; Tick 5300;
                 RecordThought 5301]) by (repeat constructor).
  split; [exact H|]. split; [reflexivity|]. split; [reflexivity|].
  rewrite (proj1 (tick_deltas_counted_once _
                    (run [StartSession 5000] initialState) H eq_refl eq_refl)).
  reflexivity.
Defined.

Lemma thoughts_bounded_by_personalBest_witness :
  personalBest initialState = Num 0
  /\ exists b' : Z,
       personalBest (run (scenario 5000) initialState) = Num b' /\ 0 <= b'
       /\ Forall (fun r => Forall (fun i => duration i <= b')
                             (removelast (sr_intervals r)))
            (allSessions (run (scenario 5000) initialState)).
Proof.
  split; [reflexivity|].
  destruct (thoughts_bounded_by_personalBest (scenario 5000) initialState 0)
    as (b' & Hb & Hle & _ & Harch); [reflexivity | constructor | constructor |].
  exists b'. split; [exact Hb|]. split; [exact Hle | exact Harch].
Defined.

Lemma archive_newest_first_witness :
  admissible 1 initialState (scenario 5000 ++ scenario 9000)
  /\ StronglySorted (fun a b => sr_id b <= sr_id a)
       (allSessions (run (scenario 5000 ++ scenario 9000) initialState)).
Proof.
  assert (Hadm : admissible 1 initialState (scenario 5000 ++ scenario 9000))
    by (vm_compute; repeat split; discriminate).
  split; [exact Hadm|].
  apply (archive_newest_first (scenario 5000 ++ scenario 9000) 1 initialState);
    [exact Hadm | constructor | constructor].
Defined.



End MoreSamples.
